(** * pwru: the event rendering pipeline of [internal/pwru/output.go]

    A shallow embedding of [output], [NewOutput], [PrintHeader], [Print],
    [protoToStr] and [addrToStr], and the properties of the rendering
    pipeline that follow from it.

    Conventions.
    - Go's fixed-width unsigned integers are values of [Z]; every operation
      that can leave the range is written with its wrap-around ([wrap64],
      [uint32]).
    - [map[uint64]uint64] and [map[uint64]*ksym] are [gmap Z _].
    - The [io.Writer] is the sequence of writes it has received: each
      [fmt.Fprintf] call contributes one chunk.
    - What [Print] obtains from outside the package (the CPU architecture
      constant, the OS process table, [net.IP.String], the nearest-symbol
      search) is collected in the record [Env]; the two eBPF map handles are
      values of any types that implement the interfaces of [ebpf]. *)

From Stdlib Require Import ZArith Ascii String HexString List.
From stdpp Require Import base option list gmap strings pretty.

Local Open Scope Z_scope.

(** ** Integers *)

Definition wrap64 (x : Z) : Z := x mod 2 ^ 64.

(** The conversion [uint32(x)]. *)
Definition uint32 (x : Z) : Z := x mod 2 ^ 32.

(** ** Package [unicode/utf8]: counting runes

    [fmt] measures the width of a [%s] operand in runes.
    [RuneCountInString] walks the bytes: an ASCII byte is one rune; a
    leading byte opens a sequence of 2 to 4 bytes when enough bytes are left
    and the bytes that follow are in the ranges the leading byte accepts;
    any other byte counts as one rune by itself. *)

Module utf8.

Definition RuneSelf : Z := 0x80.
Definition locb : Z := 0x80.
Definition hicb : Z := 0xBF.

(** The table [first]: for a leading byte, the index of the range that its
    second byte must lie in, and the size of the sequence; [None] for the
    bytes that cannot lead ([xx]).  ASCII is handled before the table is
    consulted. *)
Definition first (c : Z) : option (Z * nat) :=
  if c <? 0xC2 then None
  else if c <=? 0xDF then Some (0, 2%nat)
  else if c =? 0xE0 then Some (1, 3%nat)
  else if c <=? 0xEC then Some (0, 3%nat)
  else if c =? 0xED then Some (2, 3%nat)
  else if c <=? 0xEF then Some (0, 3%nat)
  else if c =? 0xF0 then Some (3, 4%nat)
  else if c <=? 0xF3 then Some (0, 4%nat)
  else if c =? 0xF4 then Some (4, 4%nat)
  else None.

Definition acceptRanges (i : Z) : Z * Z :=
  if i =? 0 then (locb, hicb)
  else if i =? 1 then (0xA0, hicb)
  else if i =? 2 then (locb, 0x9F)
  else if i =? 3 then (0x90, hicb)
  else if i =? 4 then (locb, 0x8F)
  else (0, 0).

(** The number of bytes that the rune starting with [c], followed by
    [rest], takes. *)
Definition size (c : Z) (rest : list Z) : nat :=
  if c <? RuneSelf then 1%nat
  else
    match first c with
    | None => 1%nat
    | Some (accept, n) =>
        if (S (length rest) <? n)%nat then 1%nat
        else
          let (lo, hi) := acceptRanges accept in
          match rest with
          | c1 :: rest1 =>
              if (c1 <? lo) || (hi <? c1) then 1%nat
              else if (n =? 2)%nat then 2%nat
              else
                match rest1 with
                | c2 :: rest2 =>
                    if (c2 <? locb) || (hicb <? c2) then 1%nat
                    else if (n =? 3)%nat then 3%nat
                    else
                      match rest2 with
                      | c3 :: _ =>
                          if (c3 <? locb) || (hicb <? c3) then 1%nat else 4%nat
                      | [] => 1%nat
                      end
                | [] => 1%nat
                end
          | [] => 1%nat
          end
    end.

(** The runes of [bs], after the [skip] bytes that still belong to the
    rune before. *)
Fixpoint count (skip : nat) (bs : list Z) : nat :=
  match bs with
  | [] => 0%nat
  | c :: rest =>
      match skip with
      | S k => count k rest
      | O => S (count (size c rest - 1) rest)
      end
  end.

Definition bytes (s : string) : list Z :=
  (fun c => Z.of_N (N_of_ascii c)) <$> list_ascii_of_string s.

Definition RuneCountInString (s : string) : nat := count 0 (bytes s).

End utf8.

(** ** Package [fmt]: the verbs used by the renderer *)

Module fmt.

(** [%d] of an unsigned integer. *)
Definition d (n : Z) : string := pretty n.

(** [%x] of an unsigned integer: lower-case digits, no leading zeros. *)
Definition x (n : Z) : string :=
  match Z.to_N n with
  | N0 => "0"
  | Npos p => HexString.Raw.of_pos p EmptyString
  end.

Fixpoint spaces (n : nat) : string :=
  match n with
  | O => EmptyString
  | S n' => String " "%char (spaces n')
  end.

(** The line feed, [\n]. *)
Definition nl : string := String "010"%char EmptyString.

(** A width: right-justify, padding with spaces on the left up to [w]
    runes. *)
Definition pad (w : nat) (s : string) : string :=
  spaces (w - utf8.RuneCountInString s) +:+ s.

End fmt.

(** ** Package [syscall]: the protocol constants (Linux) *)

Module syscall.
Definition IPPROTO_ICMP : Z := 1.
Definition IPPROTO_TCP : Z := 6.
Definition IPPROTO_UDP : Z := 17.
Definition IPPROTO_ICMPV6 : Z := 58.
Definition ETH_P_IP : Z := 0x0800.
Definition ETH_P_IPV6 : Z := 0x86dd.
End syscall.

(** ** Package [ebpf]: the map handles

    The methods of [*ebpf.Map] that [Print] calls, as two interfaces: the
    stack table is looked up and deleted from, the buffer table is only
    looked up.  A result of [None] stands for a non-nil [error].  [Delete]
    returns the handle after the call; its error result is discarded by the
    caller.  The one law is that a key that has been deleted is not found
    by the next [Lookup]. *)

Module ebpf.

Class Map (M V : Type) := {
  Lookup : M -> Z -> option V;
  Delete : M -> Z -> M;
  Lookup_Delete : forall m k, Lookup (Delete m k) k = None
}.

Class ByteMap (M : Type) := {
  LookupBytes : M -> Z -> option (list Byte.byte)
}.

End ebpf.

(** ** Package [byteorder] *)

Module byteorder.

(** [bits.ReverseBytes16]: [x>>8 | x<<8] on 16 bits. *)
Definition ReverseBytes16 (u : Z) : Z :=
  Z.lor (Z.shiftr u 8) (Z.shiftl u 8) mod 2 ^ 16.

(** Modelled from the spec: [internal/byteorder] is not among the sources.
    "Ports are stored in network byte order and must be converted to host
    order before rendering": on a little-endian host the two bytes are
    exchanged, on a big-endian host the value is returned as it is.  The
    host's byte order is fixed at build time, like [runtime.GOARCH]. *)
Definition NetworkToHost16 (littleEndian : bool) (u : Z) : Z :=
  if littleEndian then ReverseBytes16 u else u.

End byteorder.

(** ** Data model *)

Record Flags := {
  OutputTS : string;
  OutputMeta : bool;
  OutputTuple : bool;
  OutputStack : bool;
  OutputSkb : bool;
  OutputFile : string
}.

(** [Meta], [Tuple], [StackData], [Event], [ksym] and [Addr2Name] are
    declared outside [output.go]; the records below have the fields that
    [Print] reads, with the integer widths its format verbs and conversions
    imply. *)
Record Meta := {
  Netns : Z;
  Mark : Z;
  Ifindex : Z;
  Proto : Z;
  MTU : Z;
  Len : Z
}.

Record Tuple := {
  Saddr : list Byte.byte;   (* [16]byte *)
  Daddr : list Byte.byte;   (* [16]byte *)
  Sport : Z;
  Dport : Z;
  L3Proto : Z;
  L4Proto : Z
}.

Record StackData := { IPs : list Z }.

(** The fields [Meta] and [Tuple] of [Event] are [EMeta] and [ETuple]. *)
Record Event := {
  PID : Z;
  CPU : Z;
  Addr : Z;
  SAddr : Z;
  Timestamp : Z;
  PrintSkbId : Z;
  PrintStackId : Z;
  EMeta : Meta;
  ETuple : Tuple
}.

Record ksym := { addr : Z; name : string }.

Record Addr2Name := {
  Addr2NameMap : gmap Z ksym;
  Addr2NameSlice : list ksym
}.

(** [ps.Process], reduced to its [Executable] method. *)
Record Process := { Executable : string }.

(** What the renderer takes from its surroundings. *)
Record Env := {
  (** [runtime.GOARCH] *)
  GOARCH : string;
  (** byte order of the host, for [byteorder.NetworkToHost16] *)
  LittleEndian : bool;
  (** [ps.FindProcess]: the process, if any, and the error, if any *)
  FindProcess : Z -> option Process * option string;
  (** [net.IP.String] *)
  IP_String : list Byte.byte -> string;
  (** [Addr2Name.findNearestSym], declared outside [output.go] *)
  findNearestSym : Addr2Name -> Z -> string;
  (** [os.Create]: whether the named file can be created *)
  os_Create : string -> bool
}.

Record output {MB MS : Type} := {
  flags : Flags;
  lastSeenSkb : gmap Z Z;   (* skb addr => last seen TS *)
  printSkbMap : MB;
  printStackMap : MS;
  addr2name : Addr2Name;
  writer : list string;
  kprobeMulti : bool
}.
Arguments output : clear implicits.

(** ** [protoToStr] and [addrToStr] *)

Definition protoToStr (proto : Z) : string :=
  if proto =? syscall.IPPROTO_TCP then "tcp"
  else if proto =? syscall.IPPROTO_UDP then "udp"
  else if proto =? syscall.IPPROTO_ICMP then "icmp"
  else if proto =? syscall.IPPROTO_ICMPV6 then "icmp6"
  else EmptyString.

Definition addrToStr (env : Env) (proto : Z) (addr : list Byte.byte) : string :=
  if proto =? syscall.ETH_P_IP then IP_String env (take 4 addr)
  else if proto =? syscall.ETH_P_IPV6 then "[" +:+ IP_String env addr +:+ "]"
  else EmptyString.

(** ** [NewOutput], [PrintHeader], [Print] *)

Section Output.

Context {MB MS : Type}.
Context `{!ebpf.ByteMap MB} `{!ebpf.Map MS StackData}.
Variable env : Env.

(** [None] is the error of [os.Create]. *)
Definition NewOutput (flags : Flags) (printSkbMap : MB) (printStackMap : MS)
    (addr2Name : Addr2Name) (kprobeMulti : bool) : option (output MB MS) :=
  if negb (String.eqb (OutputFile flags) EmptyString) && negb (os_Create env (OutputFile flags))
  then None
  else Some {| flags := flags;
               lastSeenSkb := ∅;
               printSkbMap := printSkbMap;
               printStackMap := printStackMap;
               addr2name := addr2Name;
               writer := [];
               kprobeMulti := kprobeMulti |}.

Definition Fprintf (o : output MB MS) (s : string) : output MB MS :=
  {| flags := flags o;
     lastSeenSkb := lastSeenSkb o;
     printSkbMap := printSkbMap o;
     printStackMap := printStackMap o;
     addr2name := addr2name o;
     writer := writer o ++ [s];
     kprobeMulti := kprobeMulti o |}.

Definition PrintHeader (o : output MB MS) : output MB MS :=
  let o := Fprintf o (fmt.pad 18 "SKB" +:+ " " +:+ fmt.pad 6 "CPU" +:+ " "
                      +:+ fmt.pad 16 "PROCESS" +:+ " " +:+ fmt.pad 24 "FUNC") in
  let o := if negb (String.eqb (OutputTS (flags o)) "none")
           then Fprintf o (" " +:+ fmt.pad 16 "TIMESTAMP") else o in
  Fprintf o fmt.nl.

(** The assignment [o.lastSeenSkb[k] = v]. *)
Definition setLastSeen (o : output MB MS) (k v : Z) : output MB MS :=
  {| flags := flags o;
     lastSeenSkb := <[k := v]> (lastSeenSkb o);
     printSkbMap := printSkbMap o;
     printStackMap := printStackMap o;
     addr2name := addr2name o;
     writer := writer o;
     kprobeMulti := kprobeMulti o |}.

(** The call [o.printStackMap.Delete(&id)], its result discarded. *)
Definition deleteStack (o : output MB MS) (id : Z) : output MB MS :=
  {| flags := flags o;
     lastSeenSkb := lastSeenSkb o;
     printSkbMap := printSkbMap o;
     printStackMap := ebpf.Delete (printStackMap o) id;
     addr2name := addr2name o;
     writer := writer o;
     kprobeMulti := kprobeMulti o |}.

Definition Print (o : output MB MS) (event : Event) : output MB MS :=
  let execName :=
    match FindProcess env (PID event) with
    | (Some p, None) => Executable p
    | (_, _) => "<empty>"
    end in
  let ts := Timestamp event in
  let ts :=
    if String.eqb (OutputTS (flags o)) "relative" then
      match lastSeenSkb o !! SAddr event with
      | Some last => wrap64 (ts - last)
      | None => 0
      end
    else ts in
  let addr := 0 in
  let addr :=
    if String.eqb (GOARCH env) "amd64" then
      let addr := Addr event in
      if negb (kprobeMulti o) then wrap64 (addr - 1) else addr
    else if String.eqb (GOARCH env) "arm64" then Addr event
    else addr in
  let funcName :=
    match Addr2NameMap (addr2name o) !! addr with
    | Some ksym => name ksym
    | None =>
        match String.eqb (GOARCH env) "amd64",
              Addr2NameMap (addr2name o) !! wrap64 (addr - 4) with
        | true, Some ksym => name ksym
        | _, _ => "0x" +:+ fmt.x addr
        end
    end in
  let o := Fprintf o (fmt.pad 18 ("0x" +:+ fmt.x (SAddr event)) +:+ " "
                      +:+ fmt.pad 6 (fmt.d (CPU event)) +:+ " "
                      +:+ fmt.pad 16 ("[" +:+ execName +:+ "]") +:+ " "
                      +:+ fmt.pad 24 funcName) in
  let o := if negb (String.eqb (OutputTS (flags o)) "none")
           then Fprintf o (" " +:+ fmt.pad 16 (fmt.d ts)) else o in
  let o := setLastSeen o (SAddr event) (Timestamp event) in
  let o :=
    if OutputMeta (flags o) then
      let m := EMeta event in
      Fprintf o (" netns=" +:+ fmt.d (Netns m) +:+ " mark=0x" +:+ fmt.x (Mark m)
                 +:+ " ifindex=" +:+ fmt.d (Ifindex m) +:+ " proto=" +:+ fmt.x (Proto m)
                 +:+ " mtu=" +:+ fmt.d (MTU m) +:+ " len=" +:+ fmt.d (Len m))
    else o in
  let o :=
    if OutputTuple (flags o) then
      let t := ETuple event in
      Fprintf o (" " +:+ addrToStr env (L3Proto t) (Saddr t) +:+ ":"
                 +:+ fmt.d (byteorder.NetworkToHost16 (LittleEndian env) (Sport t)) +:+ "->"
                 +:+ addrToStr env (L3Proto t) (Daddr t) +:+ ":"
                 +:+ fmt.d (byteorder.NetworkToHost16 (LittleEndian env) (Dport t))
                 +:+ "(" +:+ protoToStr (L4Proto t) +:+ ")")
    else o in
  let o :=
    if OutputStack (flags o) && (0 <? PrintStackId event) then
      let id := uint32 (PrintStackId event) in
      let o :=
        match ebpf.Lookup (printStackMap o) id with
        | Some stack =>
            fold_left
              (fun o ip =>
                 if 0 <? ip
                 then Fprintf o (fmt.nl +:+ findNearestSym env (addr2name o) ip)
                 else o)
              (IPs stack) o
        | None => o
        end in
      deleteStack o id
    else o in
  let o :=
    if OutputSkb (flags o) then
      let id := uint32 (PrintSkbId event) in
      match ebpf.LookupBytes (printSkbMap o) id with
      | Some str => Fprintf o (fmt.nl +:+ string_of_list_byte str)
      | None => o
      end
    else o in
  Fprintf o fmt.nl.

End Output.

(** ** Implementations of the map interfaces *)

(** A stack table held as a finite map: an absent key is [ErrKeyNotExist]. *)
#[export] Instance gmap_Map {V : Type} : ebpf.Map (gmap Z V) V := {|
  ebpf.Lookup m k := m !! k;
  ebpf.Delete m k := delete k m;
  ebpf.Lookup_Delete m k := lookup_delete_eq m k
|}.

(** A stack table whose every fetch fails, and which records the keys of
    the deletes it receives, latest first. *)
Record failing := { deletes : list Z }.

#[export] Instance failing_Map {V : Type} : ebpf.Map failing V := {|
  ebpf.Lookup _ _ := None;
  ebpf.Delete m k := {| deletes := k :: deletes m |};
  ebpf.Lookup_Delete _ _ := eq_refl
|}.

(** A buffer table held as a finite map.  [LookupBytes] "returns a nil
    value if a key doesn't exist", with a nil error: the answer for an
    absent key is the empty value, not an error. *)
Record bufferTable := { slots : gmap Z (list Byte.byte) }.

#[export] Instance bufferTable_ByteMap : ebpf.ByteMap bufferTable := {|
  ebpf.LookupBytes t k := Some (default [] (slots t !! k))
|}.

(** A buffer table given by its answers. *)
#[export] Instance answers_ByteMap : ebpf.ByteMap (Z -> option (list Byte.byte)) := {|
  ebpf.LookupBytes m k := m k
|}.

(** ** The record, section by section

    The values that [Print] computes and the chunks it writes, named one by
    one; [Print_writer] below shows that [Print] writes exactly these. *)

Definition execName (env : Env) (pid : Z) : string :=
  match FindProcess env pid with
  | (Some p, None) => Executable p
  | _ => "<empty>"
  end.

(** The timestamp shown for an event, given the per-flow clock. *)
Definition shownTs (mode : string) (clock : gmap Z Z) (event : Event) : Z :=
  if String.eqb mode "relative" then
    match clock !! SAddr event with
    | Some last => wrap64 (Timestamp event - last)
    | None => 0
    end
  else Timestamp event.

(** The address that is looked up in the symbol table. *)
Definition lookupAddr (arch : string) (kprobeMulti : bool) (raw : Z) : Z :=
  if String.eqb arch "amd64" then
    if kprobeMulti then raw else wrap64 (raw - 1)
  else if String.eqb arch "arm64" then raw
  else 0.

Definition funcName (arch : string) (syms : gmap Z ksym) (a : Z) : string :=
  match syms !! a with
  | Some k => name k
  | None =>
      if String.eqb arch "amd64" then
        match syms !! wrap64 (a - 4) with
        | Some k => name k
        | None => "0x" +:+ fmt.x a
        end
      else "0x" +:+ fmt.x a
  end.

Definition fixedColumns (skb cpu : Z) (exe fn : string) : string :=
  fmt.pad 18 ("0x" +:+ fmt.x skb) +:+ " " +:+ fmt.pad 6 (fmt.d cpu) +:+ " "
  +:+ fmt.pad 16 ("[" +:+ exe +:+ "]") +:+ " " +:+ fmt.pad 24 fn.

Definition tsColumn (mode : string) (ts : Z) : list string :=
  if String.eqb mode "none" then [] else [" " +:+ fmt.pad 16 (fmt.d ts)].

Definition metaSection (on : bool) (m : Meta) : list string :=
  if on then
    [" netns=" +:+ fmt.d (Netns m) +:+ " mark=0x" +:+ fmt.x (Mark m)
     +:+ " ifindex=" +:+ fmt.d (Ifindex m) +:+ " proto=" +:+ fmt.x (Proto m)
     +:+ " mtu=" +:+ fmt.d (MTU m) +:+ " len=" +:+ fmt.d (Len m)]
  else [].

Definition tupleText (env : Env) (t : Tuple) : string :=
  " " +:+ addrToStr env (L3Proto t) (Saddr t) +:+ ":"
  +:+ fmt.d (byteorder.NetworkToHost16 (LittleEndian env) (Sport t)) +:+ "->"
  +:+ addrToStr env (L3Proto t) (Daddr t) +:+ ":"
  +:+ fmt.d (byteorder.NetworkToHost16 (LittleEndian env) (Dport t))
  +:+ "(" +:+ protoToStr (L4Proto t) +:+ ")".

Definition tupleSection (env : Env) (on : bool) (t : Tuple) : list string :=
  if on then [tupleText env t] else [].

(** One continuation line per non-zero address, in stored order. *)
Fixpoint stackLines (env : Env) (syms : Addr2Name) (ips : list Z) : list string :=
  match ips with
  | [] => []
  | ip :: ips' =>
      if 0 <? ip
      then (fmt.nl +:+ findNearestSym env syms ip) :: stackLines env syms ips'
      else stackLines env syms ips'
  end.

Section Sections.

Context {MB MS : Type}.
Context `{!ebpf.ByteMap MB} `{!ebpf.Map MS StackData}.
Variable env : Env.

(** Whether [Print] enters the stack expander for this event. *)
Definition stackWanted (o : output MB MS) (event : Event) : bool :=
  OutputStack (flags o) && (0 <? PrintStackId event).

Definition stackSection (o : output MB MS) (event : Event) : list string :=
  if stackWanted o event then
    match ebpf.Lookup (printStackMap o) (uint32 (PrintStackId event)) with
    | Some stack => stackLines env (addr2name o) (IPs stack)
    | None => []
    end
  else [].

Definition skbSection (o : output MB MS) (event : Event) : list string :=
  if OutputSkb (flags o) then
    match ebpf.LookupBytes (printSkbMap o) (uint32 (PrintSkbId event)) with
    | Some str => [fmt.nl +:+ string_of_list_byte str]
    | None => []
    end
  else [].

(** The chunks of one record after its fixed columns. *)
Definition afterColumns (o : output MB MS) (event : Event) : list string :=
  tsColumn (OutputTS (flags o))
           (shownTs (OutputTS (flags o)) (lastSeenSkb o) event)
  ++ metaSection (OutputMeta (flags o)) (EMeta event)
  ++ tupleSection env (OutputTuple (flags o)) (ETuple event)
  ++ stackSection o event
  ++ skbSection o event
  ++ [fmt.nl].

Definition functionColumn (o : output MB MS) (event : Event) : string :=
  funcName (GOARCH env) (Addr2NameMap (addr2name o))
           (lookupAddr (GOARCH env) (kprobeMulti o) (Addr event)).

Definition record (o : output MB MS) (event : Event) : list string :=
  fixedColumns (SAddr event) (CPU event) (execName env (PID event))
               (functionColumn o event)
  :: afterColumns o event.

(** Several writes in a row. *)
Definition Fprintfs (o : output MB MS) (chunks : list string) : output MB MS :=
  {| flags := flags o;
     lastSeenSkb := lastSeenSkb o;
     printSkbMap := printSkbMap o;
     printStackMap := printStackMap o;
     addr2name := addr2name o;
     writer := writer o ++ chunks;
     kprobeMulti := kprobeMulti o |}.

(** Processing a stream of events, oldest first. *)
Definition run (o : output MB MS) (events : list Event) : output MB MS :=
  fold_left (Print env) events o.

End Sections.

(** The timestamp of the latest event of [events] (oldest first) whose flow
    key is [k]. *)
Fixpoint lastTs (k : Z) (events : list Event) : option Z :=
  match events with
  | [] => None
  | e :: rest =>
      match lastTs k rest with
      | Some t => Some t
      | None => if SAddr e =? k then Some (Timestamp e) else None
      end
  end.

(** ** Concrete surroundings and inputs *)

Module Ex.

(** Modelled from the spec: [Addr2Name.findNearestSym] is not among the
    sources.  "Returns the symbol whose address is the greatest value not
    exceeding the queried address"; the empty name when there is none. *)
Definition nearestBelow (syms : Addr2Name) (ip : Z) : string :=
  let best :=
    fold_left
      (fun (acc : option ksym) (k : ksym) =>
         if addr k <=? ip then
           match acc with
           | Some b => if addr b <=? addr k then Some k else acc
           | None => Some k
           end
         else acc)
      (Addr2NameSlice syms) None in
  match best with
  | Some k => name k
  | None => EmptyString
  end.

(** The bytes in decimal, separated by dots: what [net.IP.String] returns
    for a 4-byte address. *)
Fixpoint dotted (bs : list Byte.byte) : string :=
  match bs with
  | [] => EmptyString
  | [b] => fmt.d (Z.of_N (Byte.to_N b))
  | b :: rest => fmt.d (Z.of_N (Byte.to_N b)) +:+ "." +:+ dotted rest
  end.

(** A process table with one resident process, PID 1. *)
Definition procs (pid : Z) : option Process * option string :=
  if pid =? 1 then (Some {| Executable := "init" |}, None) else (None, None).

Definition env (arch : string) : Env :=
  {| GOARCH := arch;
     LittleEndian := true;
     FindProcess := procs;
     IP_String := dotted;
     findNearestSym := nearestBelow;
     os_Create := fun _ => true |}.

Definition flagsTS (mode : string) : Flags :=
  {| OutputTS := mode;
     OutputMeta := false;
     OutputTuple := false;
     OutputStack := false;
     OutputSkb := false;
     OutputFile := EmptyString |}.

(** Stack and buffer expansion switched on, no timestamp column. *)
Definition flagsExpand : Flags :=
  {| OutputTS := "none";
     OutputMeta := false;
     OutputTuple := false;
     OutputStack := true;
     OutputSkb := true;
     OutputFile := EmptyString |}.

Definition noMeta : Meta :=
  {| Netns := 0; Mark := 0; Ifindex := 0; Proto := 0; MTU := 0; Len := 0 |}.

Definition noTuple : Tuple :=
  {| Saddr := []; Daddr := []; Sport := 0; Dport := 0; L3Proto := 0; L4Proto := 0 |}.

(** An event of flow [skb] at instruction address [a] and time [ts], with
    stack id [sid] and buffer id [bid]. *)
Definition event (skb a ts sid bid : Z) : Event :=
  {| PID := 1; CPU := 0; Addr := a; SAddr := skb; Timestamp := ts;
     PrintSkbId := bid; PrintStackId := sid;
     EMeta := noMeta; ETuple := noTuple |}.

Definition noSyms : Addr2Name :=
  {| Addr2NameMap := ∅; Addr2NameSlice := [] |}.

(** The symbol table containing only [0x2000 -> "foo"]. *)
Definition foo : ksym := {| addr := 0x2000; name := "foo" |}.
Definition fooSyms : Addr2Name :=
  {| Addr2NameMap := {[ 0x2000 := foo ]}; Addr2NameSlice := [foo] |}.

(** The answers of the empty buffer table. *)
Definition noBuffers : Z -> option (list Byte.byte) :=
  ebpf.LookupBytes {| slots := ∅ |}.

(** The answers of the buffer table with one entry, the text [skb], under
    the key [k]. *)
Definition oneBuffer (k : Z) : Z -> option (list Byte.byte) :=
  ebpf.LookupBytes {| slots := {[ k := list_byte_of_string "skb" ]} |}.


Definition noStacks : gmap Z StackData := ∅.

(** A stack table with one entry, two frames and zero padding, under [k]. *)
Definition oneStack (k : Z) : gmap Z StackData :=
  {[ k := {| IPs := [0x2010; 0x3000; 0; 0] |} ]}.

(** The state with which [NewOutput] starts. *)
Definition start {MB MS : Type} (f : Flags) (skbs : MB) (stacks : MS)
    (syms : Addr2Name) (multi : bool) : output MB MS :=
  {| flags := f; lastSeenSkb := ∅; printSkbMap := skbs; printStackMap := stacks;
     addr2name := syms; writer := []; kprobeMulti := multi |}.

(** Two 16-byte buffers with the same leading 4 bytes, 10.0.0.1. *)
Definition src : list Byte.byte :=
  [Byte.x0a; Byte.x00; Byte.x00; Byte.x01; Byte.x00; Byte.x00; Byte.x00; Byte.x00;
   Byte.x00; Byte.x00; Byte.x00; Byte.x00; Byte.x00; Byte.x00; Byte.x00; Byte.x00].
Definition dst : list Byte.byte :=
  [Byte.x0a; Byte.x00; Byte.x00; Byte.x01; Byte.xff; Byte.xff; Byte.xff; Byte.xff;
   Byte.xff; Byte.xff; Byte.xff; Byte.xff; Byte.xff; Byte.xff; Byte.xff; Byte.xff].

Definition flagsTuple : Flags :=
  {| OutputTS := "none";
     OutputMeta := false;
     OutputTuple := true;
     OutputStack := false;
     OutputSkb := false;
     OutputFile := EmptyString |}.

(** A TCP segment from port 80 to port 443, the ports as a little-endian
    host reads them from network order: 0x5000 and 0xbb01. *)
Definition tcpEvent : Event :=
  {| PID := 1; CPU := 0; Addr := 0x2000; SAddr := 0xAB; Timestamp := 100;
     PrintSkbId := 0; PrintStackId := 0;
     EMeta := noMeta;
     ETuple := {| Saddr := src; Daddr := dst; Sport := 0x5000; Dport := 0xbb01;
                  L3Proto := 0x0800; L4Proto := 6 |} |}.

End Ex.

(** The event with its instruction address replaced. *)
Definition withAddr (e : Event) (a : Z) : Event :=
  {| PID := PID e; CPU := CPU e; Addr := a; SAddr := SAddr e;
     Timestamp := Timestamp e; PrintSkbId := PrintSkbId e;
     PrintStackId := PrintStackId e; EMeta := EMeta e; ETuple := ETuple e |}.

(** The surroundings with another process table. *)
Definition withFindProcess (env : Env) (f : Z -> option Process * option string) : Env :=
  {| GOARCH := GOARCH env;
     LittleEndian := LittleEndian env;
     FindProcess := f;
     IP_String := IP_String env;
     findNearestSym := findNearestSym env;
     os_Create := os_Create env |}.

(** The 16-bit value that a little-endian host reads from two bytes in
    memory, and the value they denote in network byte order. *)
Definition hostLE16 (b0 b1 : Z) : Z := b0 + 256 * b1.
Definition network16 (b0 b1 : Z) : Z := 256 * b0 + b1.

(** ** The header, streams and flows *)

(** The column titles that [PrintHeader] writes first. *)
Definition headerColumns : string :=
  fmt.pad 18 "SKB" +:+ " " +:+ fmt.pad 6 "CPU" +:+ " "
  +:+ fmt.pad 16 "PROCESS" +:+ " " +:+ fmt.pad 24 "FUNC".

(** The width of the fixed columns when every field fits its column. *)
Definition columnsWidth : nat := 18 + 1 + 6 + 1 + 16 + 1 + 24.

(** The flow keys of a stream of events. *)
Definition flowKeys (events : list Event) : gset Z :=
  list_to_set (SAddr <$> events).

(** The events of a stream that belong to the flow [k], in order. *)
Definition ofFlow (k : Z) (events : list Event) : list Event :=
  filter (fun e => SAddr e = k) events.

(** The keys under which the events of a stream enter the stack expander
    of an output with stack output switched on. *)
Definition stackIds (events : list Event) : gset Z :=
  list_to_set (uint32 <$> (PrintStackId <$> filter (fun e => 0 < PrintStackId e) events)).

(** More inputs for the examples. *)
Module Sample.

(** All sections switched on, absolute timestamps. *)
Definition flagsAll : Flags :=
  {| OutputTS := "absolute";
     OutputMeta := true;
     OutputTuple := true;
     OutputStack := true;
     OutputSkb := true;
     OutputFile := "trace.log" |}.

(** A file system in which only [trace.log] can be created. *)
Definition onlyTraceLog (path : string) : bool := String.eqb path "trace.log".

Definition env (arch : string) : Env :=
  {| GOARCH := arch;
     LittleEndian := true;
     FindProcess := Ex.procs;
     IP_String := Ex.dotted;
     findNearestSym := Ex.nearestBelow;
     os_Create := onlyTraceLog |}.

(** Stack table with the entries 7 and 9. *)
Definition twoStacks : gmap Z StackData :=
  {[ 7 := {| IPs := [0x2010; 0; 0x3000; 0] |};
     9 := {| IPs := [0; 0] |} ]}.

(** The same, written to a file that cannot be created. *)
Definition flagsDenied : Flags :=
  {| OutputTS := "absolute";
     OutputMeta := true;
     OutputTuple := true;
     OutputStack := true;
     OutputSkb := true;
     OutputFile := "denied.log" |}.

(** An event of flow [skb] at time [ts] with stack id [sid]. *)
Definition at_ (skb ts sid : Z) : Event := Ex.event skb 0x2000 ts sid 0.

(** The name [cafe] with an acute accent on the last letter, which takes
    the two bytes 195 and 169. *)
Definition cafe : string :=
  "caf" +:+ String "195"%char (String "169"%char EmptyString).

(** A process table whose PID 1 runs under that name. *)
Definition procsCafe (pid : Z) : option Process * option string :=
  if pid =? 1 then (Some {| Executable := cafe |}, None) else (None, None).

Definition envCafe : Env :=
  {| GOARCH := "amd64";
     LittleEndian := true;
     FindProcess := procsCafe;
     IP_String := Ex.dotted;
     findNearestSym := Ex.nearestBelow;
     os_Create := onlyTraceLog |}.

End Sample.

(** * Properties *)

(** ** [Print], unfolded *)

Section PrintFacts.

Context {MB MS : Type}.
Context `{!ebpf.ByteMap MB} `{!ebpf.Map MS StackData}.
Variable env : Env.

Implicit Types (o : output MB MS) (e : Event).

(** Name the outermost [let] of the left-hand side. *)
Ltac let_in y :=
  match goal with
  | |- (let x := ?v in @?f x) = ?r =>
      pose (y := v); change (f y = r); cbv beta
  end.

Lemma Fprintfs_nil o : Fprintfs o [] = o.
Proof. destruct o; unfold Fprintfs; simpl. by rewrite app_nil_r. Qed.

Lemma Fprintfs_Fprintf o s chunks :
  Fprintfs (Fprintf o s) chunks = Fprintfs o (s :: chunks).
Proof. unfold Fprintfs, Fprintf; simpl. by rewrite <- app_assoc. Qed.

Lemma Fprintf_Fprintfs o s : Fprintf o s = Fprintfs o [s].
Proof. reflexivity. Qed.

Lemma Fprintfs_app o l1 l2 : Fprintfs (Fprintfs o l1) l2 = Fprintfs o (l1 ++ l2).
Proof. unfold Fprintfs; simpl. by rewrite <- app_assoc. Qed.

Lemma setLastSeen_Fprintfs o k v chunks :
  setLastSeen (Fprintfs o chunks) k v = Fprintfs (setLastSeen o k v) chunks.
Proof. reflexivity. Qed.

Lemma deleteStack_Fprintfs o id chunks :
  deleteStack (Fprintfs o chunks) id = Fprintfs (deleteStack o id) chunks.
Proof. reflexivity. Qed.

(** The loop over the stored addresses writes [stackLines] and touches
    nothing else. *)
Lemma stack_loop ips : forall o,
  fold_left
    (fun o ip =>
       if 0 <? ip
       then Fprintf o (fmt.nl +:+ findNearestSym env (addr2name o) ip)
       else o)
    ips o
  = Fprintfs o (stackLines env (addr2name o) ips).
Proof.
  induction ips as [|ip ips IH]; intros o; simpl.
  - by rewrite Fprintfs_nil.
  - destruct (0 <? ip); rewrite IH; [|done].
    by rewrite Fprintfs_Fprintf.
Qed.

Lemma Print_addr arch km raw :
  (if String.eqb arch "amd64"
   then if negb km then wrap64 (raw - 1) else raw
   else if String.eqb arch "arm64" then raw else 0)
  = lookupAddr arch km raw.
Proof. unfold lookupAddr. by destruct km. Qed.

Lemma Print_funcName arch (syms : gmap Z ksym) a :
  match syms !! a with
  | Some ksym => name ksym
  | None =>
      match String.eqb arch "amd64", syms !! wrap64 (a - 4) with
      | true, Some ksym => name ksym
      | _, _ => "0x" +:+ fmt.x a
      end
  end = funcName arch syms a.
Proof.
  unfold funcName.
  destruct (syms !! a); [done|].
  by destruct (String.eqb arch "amd64"), (syms !! wrap64 (a - 4)).
Qed.

(** [Print] leaves everything as it was, except that the clock entry of
    the flow is overwritten, the stack table receives a delete when the
    stack expander is entered, and the writer receives the record. *)
Lemma Print_eq o e :
  Print env o e =
  {| flags := flags o;
     lastSeenSkb := <[SAddr e := Timestamp e]> (lastSeenSkb o);
     printSkbMap := printSkbMap o;
     printStackMap :=
       if stackWanted o e
       then ebpf.Delete (printStackMap o) (uint32 (PrintStackId e))
       else printStackMap o;
     addr2name := addr2name o;
     writer := writer o ++ record env o e;
     kprobeMulti := kprobeMulti o |}.
Proof.
  cbv beta delta [Print].
  let_in exe. let_in ts. let_in ts'. let_in a. let_in a'. let_in fn.
  assert (ts' = shownTs (OutputTS (flags o)) (lastSeenSkb o) e) as -> by done.
  assert (a' = lookupAddr (GOARCH env) (kprobeMulti o) (Addr e)) as ->
    by apply Print_addr.
  assert (fn = functionColumn env o e) as -> by apply Print_funcName.
  clear ts a. subst exe.
  (* the fixed columns and the timestamp column *)
  let_in o0. let_in o1.
  assert (o1 = Fprintfs o0 (tsColumn (OutputTS (flags o))
                              (shownTs (OutputTS (flags o)) (lastSeenSkb o) e)))
    as ->.
  { subst o1 o0. unfold tsColumn. cbn [flags Fprintf].
    destruct (String.eqb _ "none"); cbn [negb]; [by rewrite Fprintfs_nil|done]. }
  (* the clock *)
  let_in o2.
  (* the metadata and the tuple *)
  let_in o3.
  assert (o3 = Fprintfs o2 (metaSection (OutputMeta (flags o)) (EMeta e))) as ->.
  { subst o3. unfold metaSection.
    change (flags o2) with (flags o).
    destruct (OutputMeta (flags o)); [done|by rewrite Fprintfs_nil]. }
  let_in o4.
  assert (o4 = Fprintfs (Fprintfs o2 (metaSection (OutputMeta (flags o)) (EMeta e)))
                 (tupleSection env (OutputTuple (flags o)) (ETuple e))) as ->.
  { subst o4. unfold tupleSection.
    change (flags (Fprintfs o2 _)) with (flags o).
    destruct (OutputTuple (flags o)); [done|by rewrite Fprintfs_nil]. }
  (* the stack expander *)
  set (o4 := Fprintfs (Fprintfs o2 _) _).
  let_in o5.
  assert (o5 = Fprintfs (if stackWanted o e
                         then deleteStack o4 (uint32 (PrintStackId e))
                         else o4)
                 (stackSection env o e)) as ->.
  { subst o5. unfold stackSection, stackWanted.
    change (flags o4) with (flags o).
    change (printStackMap o4) with (printStackMap o).
    destruct (OutputStack (flags o) && (0 <? PrintStackId e));
      [|by rewrite Fprintfs_nil].
    cbv zeta.
    destruct (ebpf.Lookup _ _); [by rewrite stack_loop|by rewrite Fprintfs_nil]. }
  (* the buffer expander *)
  set (o5 := Fprintfs (if stackWanted o e then _ else _) _).
  let_in o6.
  assert (o6 = Fprintfs o5 (skbSection o e)) as ->.
  { subst o6. unfold skbSection.
    assert (flags o5 = flags o) as -> by (subst o5; by destruct (stackWanted o e)).
    assert (printSkbMap o5 = printSkbMap o) as ->
      by (subst o5; by destruct (stackWanted o e)).
    destruct (OutputSkb (flags o)); [|by rewrite Fprintfs_nil].
    cbv zeta.
    destruct (ebpf.LookupBytes _ _); [done|by rewrite Fprintfs_nil]. }
  (* the end of the record *)
  subst o5 o4 o2 o0. rewrite !Fprintf_Fprintfs.
  unfold record, afterColumns, fixedColumns.
  destruct (stackWanted o e);
    repeat rewrite ?Fprintfs_app, ?setLastSeen_Fprintfs, ?deleteStack_Fprintfs;
    destruct o; unfold Fprintfs, setLastSeen, deleteStack;
    cbn [flags lastSeenSkb printSkbMap printStackMap addr2name writer kprobeMulti];
    f_equal; rewrite <- !app_assoc; reflexivity.
Qed.

End PrintFacts.

Section Projections.

Context {MB MS : Type}.
Context `{!ebpf.ByteMap MB} `{!ebpf.Map MS StackData}.
Variable env : Env.

Implicit Types (o : output MB MS) (e : Event).

Lemma Print_writer o e : writer (Print env o e) = writer o ++ record env o e.
Proof. by rewrite Print_eq. Qed.

Lemma Print_flags o e : flags (Print env o e) = flags o.
Proof. by rewrite Print_eq. Qed.

Lemma Print_addr2name o e : addr2name (Print env o e) = addr2name o.
Proof. by rewrite Print_eq. Qed.

Lemma Print_kprobeMulti o e : kprobeMulti (Print env o e) = kprobeMulti o.
Proof. by rewrite Print_eq. Qed.

Lemma Print_lastSeenSkb o e :
  lastSeenSkb (Print env o e) = <[SAddr e := Timestamp e]> (lastSeenSkb o).
Proof. by rewrite Print_eq. Qed.

Lemma Print_printSkbMap o e : printSkbMap (Print env o e) = printSkbMap o.
Proof. by rewrite Print_eq. Qed.

Lemma Print_printStackMap o e :
  printStackMap (Print env o e) =
  if stackWanted o e
  then ebpf.Delete (printStackMap o) (uint32 (PrintStackId e))
  else printStackMap o.
Proof. by rewrite Print_eq. Qed.

(** The first chunk of a record is its fixed columns. *)
Lemma Print_columns o e :
  writer (Print env o e) !! length (writer o) =
  Some (fixedColumns (SAddr e) (CPU e) (execName env (PID e))
                     (functionColumn env o e)).
Proof.
  rewrite Print_writer. unfold record.
  by rewrite lookup_app_r, Nat.sub_diag by lia.
Qed.

(** The chunks after the fixed columns. *)
Lemma Print_afterColumns o e :
  drop (S (length (writer o))) (writer (Print env o e)) = afterColumns env o e.
Proof.
  rewrite Print_writer. unfold record.
  rewrite drop_app_ge by lia.
  by replace (S (length (writer o)) - length (writer o))%nat with 1%nat by lia.
Qed.

Lemma run_snoc o events e : run env o (events ++ [e]) = Print env (run env o events) e.
Proof. unfold run. by rewrite fold_left_app. Qed.

Lemma run_flags events : forall o, flags (run env o events) = flags o.
Proof.
  induction events as [|e events IH]; intros o; [done|].
  change (run env o (e :: events)) with (run env (Print env o e) events).
  by rewrite IH, Print_flags.
Qed.

(** The clock after a stream: for every flow key, the timestamp of its
    latest event, and what was there before for the keys not seen. *)
Lemma run_lastSeenSkb events : forall o k,
  lastSeenSkb (run env o events) !! k =
  match lastTs k events with
  | Some t => Some t
  | None => lastSeenSkb o !! k
  end.
Proof.
  induction events as [|e events IH]; intros o k; [done|].
  change (run env o (e :: events)) with (run env (Print env o e) events).
  rewrite IH, Print_lastSeenSkb. simpl.
  destruct (lastTs k events); [done|].
  destruct (Z.eqb_spec (SAddr e) k) as [->|Hne].
  - by rewrite lookup_insert_eq.
  - by rewrite lookup_insert_ne.
Qed.

End Projections.

(** ** The formatting verbs *)

Lemma hex_literal n : "0x" +:+ fmt.x n = HexString.of_N (Z.to_N n).
Proof. unfold fmt.x. by destruct (Z.to_N n). Qed.

(** Distinct unsigned values have distinct hexadecimal literals. *)
Lemma hex_literal_inj n m :
  0 <= n -> 0 <= m -> "0x" +:+ fmt.x n = "0x" +:+ fmt.x m -> n = m.
Proof.
  intros Hn Hm Heq. rewrite !hex_literal in Heq.
  apply (f_equal HexString.to_N) in Heq.
  rewrite !HexString.to_N_of_N in Heq. lia.
Qed.

(** ** The L4 protocol name *)

(** C7. The L4 protocol tag renders as: 6 as "tcp", 17 as "udp", 1 as
    "icmp", 58 as "icmp6", and every other value as the empty string;
    [protoToStr] is a total function, it has no error result. *)
Theorem protoToStr_table :
  protoToStr 6 = "tcp" /\ protoToStr 17 = "udp" /\
  protoToStr 1 = "icmp" /\ protoToStr 58 = "icmp6" /\
  forall proto, proto <> 6 -> proto <> 17 -> proto <> 1 -> proto <> 58 ->
                protoToStr proto = EmptyString.
Proof.
  repeat split; try reflexivity.
  intros proto H6 H17 H1 H58. unfold protoToStr,
    syscall.IPPROTO_TCP, syscall.IPPROTO_UDP, syscall.IPPROTO_ICMP,
    syscall.IPPROTO_ICMPV6.
  destruct (Z.eqb_spec proto 6); [lia|].
  destruct (Z.eqb_spec proto 17); [lia|].
  destruct (Z.eqb_spec proto 1); [lia|].
  destruct (Z.eqb_spec proto 58); [lia|done].
Qed.

Lemma protoToStr_table_witness : protoToStr 47 = EmptyString.
Proof.
  destruct protoToStr_table as (_ & _ & _ & _ & Hother).
  apply (Hother 47); lia.
Defined.

(** ** Address normalization and symbol resolution *)

Section Resolution.

Context {MB MS : Type}.
Context `{!ebpf.ByteMap MB} `{!ebpf.Map MS StackData}.

Implicit Types (env : Env) (o : output MB MS) (e : Event).

(** C2. The address that [Print] looks up in the symbol table is the raw
    address minus 1 (in 64-bit arithmetic) on amd64 without kprobe-multi,
    the raw address on amd64 with kprobe-multi, and the raw address on
    arm64 with either attachment; the function column of the record is
    the resolution of that address. *)
Theorem address_normalization env o e :
  writer (Print env o e) !! length (writer o) =
    Some (fixedColumns (SAddr e) (CPU e) (execName env (PID e))
            (funcName (GOARCH env) (Addr2NameMap (addr2name o))
               (lookupAddr (GOARCH env) (kprobeMulti o) (Addr e))))
  /\ lookupAddr "amd64" false (Addr e) = wrap64 (Addr e - 1)
  /\ lookupAddr "amd64" true (Addr e) = Addr e
  /\ lookupAddr "arm64" false (Addr e) = Addr e
  /\ lookupAddr "arm64" true (Addr e) = Addr e
  /\ lookupAddr "amd64" false 0x1000 = 0xfff
  /\ lookupAddr "amd64" true 0x1000 = 0x1000
  /\ lookupAddr "arm64" false 0x1000 = 0x1000
  /\ lookupAddr "arm64" true 0x1000 = 0x1000.
Proof. split; [apply Print_columns|done]. Qed.

(** C3. Symbol resolution tries, in order, the exact address, then, on
    amd64 only, the address minus 4, and otherwise renders the address as
    a hexadecimal literal; the function column of the record is this
    resolution of the normalized address.  With only 0x2000 -> "foo" in
    the table, 0x2004 resolves to "foo" on amd64 and to "0x2004" on
    arm64. *)
Theorem symbol_resolution_order env o e :
  let arch := GOARCH env in
  let syms := Addr2NameMap (addr2name o) in
  let a := lookupAddr arch (kprobeMulti o) (Addr e) in
  let shows fn :=
    writer (Print env o e) !! length (writer o) =
    Some (fixedColumns (SAddr e) (CPU e) (execName env (PID e)) fn) in
  (forall k, syms !! a = Some k -> shows (name k))
  /\ (forall k, syms !! a = None -> arch = "amd64" ->
                syms !! wrap64 (a - 4) = Some k -> shows (name k))
  /\ (syms !! a = None -> arch <> "amd64" \/ syms !! wrap64 (a - 4) = None ->
      shows ("0x" +:+ fmt.x a))
  /\ funcName "amd64" (Addr2NameMap Ex.fooSyms) 0x2004 = "foo"
  /\ funcName "arm64" (Addr2NameMap Ex.fooSyms) 0x2004 = "0x2004".
Proof.
  intros arch syms a shows. subst shows. cbv beta.
  rewrite Print_columns. unfold functionColumn, funcName. fold arch syms a.
  repeat split.
  - by intros k ->.
  - intros k -> -> Hk. by rewrite Hk.
  - intros -> [Harch|Hnone].
    + by destruct (String.eqb_spec arch "amd64").
    + rewrite Hnone. by destruct (String.eqb arch "amd64").
Qed.

(** C10. On an architecture other than amd64 and arm64 the address that
    is looked up is 0 whatever the event's instruction address, so the
    function column is what address 0 resolves to: the symbol at 0 if
    there is one, the literal 0x0 otherwise. *)
Theorem other_architecture_looks_up_zero env o e :
  GOARCH env <> "amd64" -> GOARCH env <> "arm64" ->
  lookupAddr (GOARCH env) (kprobeMulti o) (Addr e) = 0
  /\ writer (Print env o e) !! length (writer o) =
     Some (fixedColumns (SAddr e) (CPU e) (execName env (PID e))
             match Addr2NameMap (addr2name o) !! 0 with
             | Some k => name k
             | None => "0x0"
             end).
Proof.
  intros Hamd Harm.
  assert (lookupAddr (GOARCH env) (kprobeMulti o) (Addr e) = 0) as Hz.
  { unfold lookupAddr.
    destruct (String.eqb_spec (GOARCH env) "amd64"); [done|].
    by destruct (String.eqb_spec (GOARCH env) "arm64"). }
  split; [done|].
  rewrite Print_columns. unfold functionColumn, funcName. rewrite Hz.
  destruct (Addr2NameMap (addr2name o) !! 0); [done|].
  by destruct (String.eqb_spec (GOARCH env) "amd64").
Qed.

End Resolution.

(** ** The per-flow clock *)

Lemma wrap64_monotone last ts :
  0 <= last <= ts -> ts < 2 ^ 64 -> wrap64 (ts - last) = ts - last.
Proof. intros Hle Hlt. unfold wrap64. apply Z.mod_small. lia. Qed.

Lemma lastTs_none k events :
  (forall e, e ∈ events -> SAddr e <> k) -> lastTs k events = None.
Proof.
  induction events as [|e events IH]; intros Hother; [done|]. simpl.
  rewrite IH by (intros e' Hin; apply Hother; by right).
  destruct (Z.eqb_spec (SAddr e) k) as [Heq|]; [|done].
  exfalso. apply (Hother e); [by left|done].
Qed.

Lemma lastTs_latest k before last after :
  SAddr last = k -> (forall e, e ∈ after -> SAddr e <> k) ->
  lastTs k (before ++ last :: after) = Some (Timestamp last).
Proof.
  intros Hkey Hafter.
  induction before as [|e before IH]; simpl.
  - rewrite (lastTs_none k after Hafter). by rewrite Hkey, Z.eqb_refl.
  - by rewrite IH.
Qed.

Section Clock.

Context {MB MS : Type}.
Context `{!ebpf.ByteMap MB} `{!ebpf.Map MS StackData}.

Implicit Types (env : Env) (o : output MB MS) (e : Event).

(** The timestamp column in relative mode, after any stream of events. *)
Lemma relative_column env o0 events e :
  OutputTS (flags o0) = "relative" -> lastSeenSkb o0 = ∅ ->
  writer (Print env (run env o0 events) e) !! S (length (writer (run env o0 events)))
  = Some (" " +:+ fmt.pad 16 (fmt.d match lastTs (SAddr e) events with
                                    | None => 0
                                    | Some last => wrap64 (Timestamp e - last)
                                    end)).
Proof.
  intros Hmode Hclock.
  rewrite Print_writer. unfold record.
  rewrite lookup_app_r by lia.
  replace (S (length (writer (run env o0 events)))
           - length (writer (run env o0 events)))%nat with 1%nat by lia.
  unfold afterColumns, tsColumn, shownTs.
  rewrite run_flags, Hmode, run_lastSeenSkb, Hclock.
  simpl. by destruct (lastTs (SAddr e) events).
Qed.

(** C1. In relative mode, starting from the state that [NewOutput]
    returns and after any stream of events, the timestamp column of the
    next event shows 0 when no earlier event had its flow key, and
    otherwise the event's timestamp minus the timestamp of the latest
    earlier event with that flow key: in 64-bit arithmetic, so exactly
    the difference when the timestamps do not decrease.  In every mode
    and every state, [Print] overwrites the clock entry of the event's
    flow key with the event's timestamp. *)
Theorem relative_timestamp_per_flow env fl skbs stacks syms multi
    (o0 : output MB MS) events e :
  OutputTS fl = "relative" ->
  NewOutput env fl skbs stacks syms multi = Some o0 ->
  let o := run env o0 events in
  let shows ts :=
    writer (Print env o e) !! S (length (writer o))
    = Some (" " +:+ fmt.pad 16 (fmt.d ts)) in
  ((forall e', e' ∈ events -> SAddr e' <> SAddr e) -> shows 0)
  /\ (forall before last after,
        events = before ++ last :: after ->
        SAddr last = SAddr e ->
        (forall e', e' ∈ after -> SAddr e' <> SAddr e) ->
        shows (wrap64 (Timestamp e - Timestamp last))
        /\ (0 <= Timestamp last <= Timestamp e -> Timestamp e < 2 ^ 64 ->
            shows (Timestamp e - Timestamp last)))
  /\ (forall o' e', lastSeenSkb (Print env o' e')
                    = <[SAddr e' := Timestamp e']> (lastSeenSkb o'))
  /\ (forall o' e', lastSeenSkb (Print env o' e') !! SAddr e' = Some (Timestamp e')).
Proof.
  intros Hmode Hnew o shows.
  assert (flags o0 = fl /\ lastSeenSkb o0 = ∅) as [Hfl Hclock].
  { unfold NewOutput in Hnew.
    destruct (_ && _); [done|]. by injection Hnew as <-. }
  rewrite <- Hfl in Hmode.
  pose proof (relative_column env o0 events e Hmode Hclock) as Hcolumn.
  fold o in Hcolumn. subst shows. cbv beta.
  split; [|split; [|split]].
  - intros Hfirst. by rewrite (lastTs_none _ _ Hfirst) in Hcolumn.
  - intros before last after -> Hkey Hafter.
    rewrite (lastTs_latest _ before last after Hkey Hafter) in Hcolumn.
    split; [done|]. intros Hle Hlt.
    by rewrite wrap64_monotone in Hcolumn.
  - intros o' e'. apply Print_lastSeenSkb.
  - intros o' e'. by rewrite Print_lastSeenSkb, lookup_insert_eq.
Qed.

End Clock.

(** The flow 0xAB with raw timestamps 100, 150, 400 shows 0, 50, 250. *)
Example relative_scenario :
  writer (run (Ex.env "amd64")
            (Ex.start (Ex.flagsTS "relative") Ex.noBuffers Ex.noStacks Ex.noSyms false)
            [Ex.event 0xAB 0x1000 100 0 0;
             Ex.event 0xAB 0x1000 150 0 0;
             Ex.event 0xAB 0x1000 400 0 0])
  = [fixedColumns 0xAB 0 "init" "0xfff"; " " +:+ fmt.pad 16 "0"; fmt.nl;
     fixedColumns 0xAB 0 "init" "0xfff"; " " +:+ fmt.pad 16 "50"; fmt.nl;
     fixedColumns 0xAB 0 "init" "0xfff"; " " +:+ fmt.pad 16 "250"; fmt.nl].
Proof. vm_compute. reflexivity. Qed.

(** After the events at 100 and 150 of the flow 0xAB, the event at 400
    shows 250. *)
Lemma relative_timestamp_per_flow_witness :
  writer (Print (Ex.env "amd64")
            (run (Ex.env "amd64")
               (Ex.start (Ex.flagsTS "relative") Ex.noBuffers Ex.noStacks Ex.noSyms false)
               [Ex.event 0xAB 0x1000 100 0 0; Ex.event 0xAB 0x1000 150 0 0])
            (Ex.event 0xAB 0x1000 400 0 0))
    !! 7%nat
  = Some (" " +:+ fmt.pad 16 "250").
Proof.
  destruct (relative_timestamp_per_flow (Ex.env "amd64")
              (Ex.flagsTS "relative") Ex.noBuffers Ex.noStacks Ex.noSyms false
              (Ex.start (Ex.flagsTS "relative") Ex.noBuffers Ex.noStacks Ex.noSyms false)
              [Ex.event 0xAB 0x1000 100 0 0; Ex.event 0xAB 0x1000 150 0 0]
              (Ex.event 0xAB 0x1000 400 0 0) eq_refl eq_refl) as (_ & Hlater & _).
  destruct (Hlater [Ex.event 0xAB 0x1000 100 0 0] (Ex.event 0xAB 0x1000 150 0 0) [])
    as [_ Hexact]; [reflexivity|reflexivity|by intros e' ?%elem_of_nil|].
  assert (0 <= 150 <= 400) as Hle by lia.
  assert (400 < 2 ^ 64) as Hlt by lia.
  specialize (Hexact Hle Hlt).
  vm_compute in Hexact |- *. exact Hexact.
Defined.

(** On amd64 with kprobe-multi and only 0x2000 -> "foo" in the table: the
    exact hit at 0x2000, the hit four bytes below 0x2004, and the literal
    for 0x3000. *)
Lemma symbol_resolution_order_witness :
  let o := Ex.start (Ex.flagsTS "none") Ex.noBuffers Ex.noStacks Ex.fooSyms true in
  writer (Print (Ex.env "amd64") o (Ex.event 0xAB 0x2000 100 0 0)) !! 0%nat
    = Some (fixedColumns 0xAB 0 "init" "foo")
  /\ writer (Print (Ex.env "amd64") o (Ex.event 0xAB 0x2004 100 0 0)) !! 0%nat
    = Some (fixedColumns 0xAB 0 "init" "foo")
  /\ writer (Print (Ex.env "amd64") o (Ex.event 0xAB 0x3000 100 0 0)) !! 0%nat
    = Some (fixedColumns 0xAB 0 "init" "0x3000").
Proof.
  intros o. split; [|split].
  - destruct (symbol_resolution_order (Ex.env "amd64") o (Ex.event 0xAB 0x2000 100 0 0))
      as (Hexact & _).
    apply (Hexact Ex.foo). reflexivity.
  - destruct (symbol_resolution_order (Ex.env "amd64") o (Ex.event 0xAB 0x2004 100 0 0))
      as (_ & Hbelow & _).
    apply (Hbelow Ex.foo); reflexivity.
  - destruct (symbol_resolution_order (Ex.env "amd64") o (Ex.event 0xAB 0x3000 100 0 0))
      as (_ & _ & Hliteral & _).
    apply Hliteral; [reflexivity|right; reflexivity].
Defined.

(** On riscv64 the event at 0x2000 is resolved at address 0. *)
Lemma other_architecture_looks_up_zero_witness :
  let o := Ex.start (Ex.flagsTS "none") Ex.noBuffers Ex.noStacks Ex.fooSyms true in
  lookupAddr "riscv64" true 0x2000 = 0
  /\ writer (Print (Ex.env "riscv64") o (Ex.event 0xAB 0x2000 100 0 0)) !! 0%nat
     = Some (fixedColumns 0xAB 0 "init" "0x0").
Proof.
  intros o.
  apply (other_architecture_looks_up_zero (Ex.env "riscv64") o
           (Ex.event 0xAB 0x2000 100 0 0)); discriminate.
Defined.

(** ** The process column *)

Section ProcessColumn.

Context {MB MS : Type}.
Context `{!ebpf.ByteMap MB} `{!ebpf.Map MS StackData}.

Implicit Types (env : Env) (o : output MB MS) (e : Event).

Lemma execName_placeholder env pid :
  (FindProcess env pid).1 = None \/ (FindProcess env pid).2 <> None ->
  execName env pid = "<empty>".
Proof.
  unfold execName.
  destruct (FindProcess env pid) as [[p|] [err|]]; simpl; intros [Hp|Herr];
    done.
Qed.

Lemma stackLines_withFindProcess env procs syms ips :
  stackLines (withFindProcess env procs) syms ips = stackLines env syms ips.
Proof.
  induction ips as [|ip ips IH]; simpl; [done|]. by rewrite IH.
Qed.

Lemma afterColumns_withFindProcess env procs o e :
  afterColumns (withFindProcess env procs) o e = afterColumns env o e.
Proof.
  unfold afterColumns, stackSection.
  destruct (stackWanted o e); [|done].
  destruct (ebpf.Lookup _ _); [|done].
  by rewrite stackLines_withFindProcess.
Qed.

(** C9. When [ps.FindProcess] finds no process for the event's PID, or
    returns an error, the process column of the record is the placeholder
    text, and [Print] returns as for any other event: the function column,
    the chunks after the fixed columns, the clock and the two tables are
    what they are under any other process table. *)
Theorem absent_process_placeholder env o e :
  (FindProcess env (PID e)).1 = None \/ (FindProcess env (PID e)).2 <> None ->
  writer (Print env o e) =
    writer o ++
    fixedColumns (SAddr e) (CPU e) "<empty>" (functionColumn env o e)
    :: afterColumns env o e
  /\ fmt.pad 16 ("[" +:+ "<empty>" +:+ "]") = "       [<empty>]"
  /\ forall procs,
       let env' := withFindProcess env procs in
       functionColumn env' o e = functionColumn env o e
       /\ drop (S (length (writer o))) (writer (Print env' o e))
          = drop (S (length (writer o))) (writer (Print env o e))
       /\ lastSeenSkb (Print env' o e) = lastSeenSkb (Print env o e)
       /\ printStackMap (Print env' o e) = printStackMap (Print env o e)
       /\ printSkbMap (Print env' o e) = printSkbMap (Print env o e).
Proof.
  intros Habsent. split; [|split; [done|]].
  - rewrite Print_writer. unfold record.
    by rewrite (execName_placeholder _ _ Habsent).
  - intros procs env'. subst env'.
    split; [reflexivity|]. split; [by rewrite !Print_afterColumns, afterColumns_withFindProcess|].
    rewrite !Print_lastSeenSkb, !Print_printStackMap, !Print_printSkbMap.
    repeat split.
Qed.

End ProcessColumn.

(** PID 2 is not in the process table of the examples. *)
Lemma absent_process_placeholder_witness :
  let o := Ex.start (Ex.flagsTS "absolute") Ex.noBuffers Ex.noStacks Ex.fooSyms true in
  let e := {| PID := 2; CPU := 3; Addr := 0x2000; SAddr := 0xAB; Timestamp := 100;
              PrintSkbId := 0; PrintStackId := 0;
              EMeta := Ex.noMeta; ETuple := Ex.noTuple |} in
  writer (Print (Ex.env "arm64") o e)
  = ["              0xab      3        [<empty>]                      foo";
     "              100"; fmt.nl].
Proof.
  intros o e.
  destruct (absent_process_placeholder (Ex.env "arm64") o e) as [Hrecord _].
  - left. reflexivity.
  - rewrite Hrecord. vm_compute. reflexivity.
Defined.

(** ** The instruction address in the record *)

Section ShownAddress.

Context {MB MS : Type}.
Context `{!ebpf.ByteMap MB} `{!ebpf.Map MS StackData}.

Implicit Types (env : Env) (o : output MB MS) (e : Event).

Lemma record_withAddr env o e raw :
  lookupAddr (GOARCH env) (kprobeMulti o) raw
  = lookupAddr (GOARCH env) (kprobeMulti o) (Addr e) ->
  record env o (withAddr e raw) = record env o e.
Proof.
  intros Hsame. unfold record, functionColumn.
  change (Addr (withAddr e raw)) with raw. by rewrite Hsame.
Qed.

Lemma afterColumns_withAddr env o e raw :
  afterColumns env o (withAddr e raw) = afterColumns env o e.
Proof. reflexivity. Qed.

(** C6, as the code has it.  The record is the fixed columns followed by
    chunks that are the same whatever the event's raw instruction address,
    as is the state after [Print]; in the fixed columns only the function
    column depends on the address, and it shows either the name of the
    symbol found at the normalized address (or, on amd64, four below it) or
    the hexadecimal literal of the normalized address.  So an instruction
    address is shown only by the fallback of the function column, and it
    is the normalized one: on amd64 without kprobe-multi the raw address
    minus 1, whose literal differs from that of the raw address; on amd64
    with kprobe-multi and on arm64 the two addresses coincide. *)
Theorem hex_fallback_shows_normalized_address env o e :
  let arch := GOARCH env in
  let syms := Addr2NameMap (addr2name o) in
  let a := lookupAddr arch (kprobeMulti o) (Addr e) in
  let fn := funcName arch syms a in
  (exists rest,
     writer (Print env o e)
     = writer o ++ fixedColumns (SAddr e) (CPU e) (execName env (PID e)) fn :: rest
     /\ forall raw,
          writer (Print env o (withAddr e raw))
          = writer o
            ++ fixedColumns (SAddr e) (CPU e) (execName env (PID e))
                 (funcName arch syms (lookupAddr arch (kprobeMulti o) raw))
            :: rest)
  /\ ((exists k, fn = name k
                 /\ (syms !! a = Some k
                     \/ (arch = "amd64" /\ syms !! a = None
                         /\ syms !! wrap64 (a - 4) = Some k)))
      \/ (syms !! a = None /\ fn = "0x" +:+ fmt.x a))
  /\ (forall raw,
        lastSeenSkb (Print env o (withAddr e raw)) = lastSeenSkb (Print env o e)
        /\ printStackMap (Print env o (withAddr e raw)) = printStackMap (Print env o e)
        /\ printSkbMap (Print env o (withAddr e raw)) = printSkbMap (Print env o e)
        /\ flags (Print env o (withAddr e raw)) = flags (Print env o e)
        /\ addr2name (Print env o (withAddr e raw)) = addr2name (Print env o e)
        /\ kprobeMulti (Print env o (withAddr e raw)) = kprobeMulti (Print env o e))
  /\ (forall raw, lookupAddr arch (kprobeMulti o) raw = a ->
     Print env o (withAddr e raw) = Print env o e)
  /\ (syms !! a = None -> arch <> "amd64" \/ syms !! wrap64 (a - 4) = None ->
      writer (Print env o e) !! length (writer o) =
      Some (fixedColumns (SAddr e) (CPU e) (execName env (PID e)) ("0x" +:+ fmt.x a)))
  /\ (arch = "amd64" -> kprobeMulti o = false -> 0 <= Addr e < 2 ^ 64 ->
      a = wrap64 (Addr e - 1) /\ "0x" +:+ fmt.x a <> "0x" +:+ fmt.x (Addr e))
  /\ (arch = "amd64" /\ kprobeMulti o = true \/ arch = "arm64" -> a = Addr e).
Proof.
  intros arch syms a fn.
  split; [|split; [|split; [|split; [|split; [|split]]]]].
  - exists (afterColumns env o e). split.
    + by rewrite Print_writer.
    + intros raw. rewrite Print_writer. unfold record, functionColumn.
      by rewrite afterColumns_withAddr.
  - subst fn. unfold funcName.
    destruct (syms !! a) as [k|] eqn:Hexact; [left; exists k; by auto|].
    destruct (String.eqb_spec arch "amd64") as [Harch|Harch]; [|by right].
    destruct (syms !! wrap64 (a - 4)) as [k|] eqn:Hbelow; [|by right].
    left. exists k. split; [done|]. right. by rewrite Harch.
  - intros raw.
    rewrite !Print_lastSeenSkb, !Print_printStackMap, !Print_printSkbMap,
      !Print_flags, !Print_addr2name, !Print_kprobeMulti.
    repeat split.
  - intros raw Hraw. rewrite !Print_eq.
    by rewrite (record_withAddr env o e raw Hraw).
  - intros Hmiss Hbelow. rewrite Print_columns.
    unfold functionColumn, funcName. fold arch syms a. rewrite Hmiss.
    destruct Hbelow as [Harch|Hnone].
    + by destruct (String.eqb_spec arch "amd64").
    + rewrite Hnone. by destruct (String.eqb arch "amd64").
  - intros Harch Hsingle Hrange.
    assert (a = wrap64 (Addr e - 1)) as Ha
      by (subst a; by rewrite Harch, Hsingle).
    split; [done|]. intros Heq.
    apply hex_literal_inj in Heq; [| |lia].
    + rewrite Ha in Heq. unfold wrap64 in Heq.
      destruct (Z.eq_dec (Addr e) 0) as [Hz|Hnz].
      * rewrite Hz in Heq. vm_compute in Heq. discriminate.
      * rewrite Z.mod_small in Heq by lia. lia.
    + rewrite Ha. unfold wrap64. apply Z.mod_pos_bound. lia.
  - intros [[Harch Hmulti]|Harch]; subst a; unfold lookupAddr.
    + by rewrite Harch, Hmulti.
    + rewrite Harch. simpl. done.
Qed.

End ShownAddress.

(** amd64 without kprobe-multi, no symbols, raw address 0x1000: the record
    reads 0xfff. *)
Lemma hex_fallback_shows_normalized_address_witness :
  let o := Ex.start (Ex.flagsTS "none") Ex.noBuffers Ex.noStacks Ex.noSyms false in
  writer (Print (Ex.env "amd64") o (Ex.event 0xAB 0x1000 100 0 0)) !! 0%nat
  = Some (fixedColumns 0xAB 0 "init" "0xfff").
Proof.
  intros o.
  destruct (hex_fallback_shows_normalized_address (Ex.env "amd64") o
              (Ex.event 0xAB 0x1000 100 0 0)) as (_ & _ & _ & _ & Hliteral & _).
  apply Hliteral; [reflexivity|right; reflexivity].
Defined.

(** C6, as the claim has it, fails: the record of an event at raw address
    0x1000 shows 0xfff where the claim has 0x1000. *)
Lemma raw_address_not_shown :
  let o := Ex.start (Ex.flagsTS "none") Ex.noBuffers Ex.noStacks Ex.noSyms false in
  let e := Ex.event 0xAB 0x1000 100 0 0 in
  writer (Print (Ex.env "amd64") o e)
  = ["              0xab      0           [init]                    0xfff"; fmt.nl]
  /\ "0x" +:+ fmt.x (Addr e) = "0x1000"
  /\ writer (Print (Ex.env "amd64") o e) !! 0%nat
     <> Some (fixedColumns (SAddr e) (CPU e) "init" ("0x" +:+ fmt.x (Addr e))).
Proof. vm_compute. repeat split. discriminate. Qed.

(** ** The tuple *)

(** On a little-endian host, [NetworkToHost16] turns what the host reads
    from two bytes into what the bytes denote in network order. *)
Lemma ReverseBytes16_hostLE16 b0 b1 :
  0 <= b0 < 256 -> 0 <= b1 < 256 ->
  byteorder.ReverseBytes16 (hostLE16 b0 b1) = network16 b0 b1.
Proof.
  intros H0 H1. unfold byteorder.ReverseBytes16, hostLE16, network16.
  assert (Z.shiftr (b0 + 256 * b1) 8 = b1) as ->.
  { rewrite Z.shiftr_div_pow2 by lia. change (2 ^ 8) with 256.
    rewrite (Z.mul_comm 256), Z.div_add by lia.
    rewrite Z.div_small by lia. lia. }
  assert (Z.land b1 (Z.shiftl (b0 + 256 * b1) 8) = 0) as Hdisjoint.
  { rewrite <- (Z.mod_small b1 (2 ^ 8)) at 1 by (change (2 ^ 8) with 256; lia).
    rewrite <- Z.land_ones, <- Z.land_assoc, (Z.land_comm (Z.ones 8)) by lia.
    rewrite Z.land_ones, Z.shiftl_mul_pow2, Z.mod_mul by lia.
    apply Z.land_0_r. }
  pose proof (Z.add_lor_land b1 (Z.shiftl (b0 + 256 * b1) 8)) as Hsum.
  rewrite Hdisjoint, Z.add_0_r in Hsum. rewrite Hsum.
  rewrite Z.shiftl_mul_pow2 by lia.
  replace (b1 + (b0 + 256 * b1) * 2 ^ 8) with (256 * b0 + b1 + b1 * 2 ^ 16) by lia.
  rewrite Z.mod_add by lia. apply Z.mod_small. lia.
Qed.

Section TupleSection.

Context {MB MS : Type}.
Context `{!ebpf.ByteMap MB} `{!ebpf.Map MS StackData}.

Implicit Types (env : Env) (o : output MB MS) (e : Event).

(** C8. For the IPv4 tag (0x0800) an endpoint address is rendered from the
    leading 4 bytes of the buffer and from nothing else; for the IPv6 tag
    (0x86dd) from all 16 bytes, in brackets; for any other tag it is the
    empty string.  The tuple section of the record shows both ports after
    [NetworkToHost16], which on a little-endian host turns the value read
    from two bytes in network order into the number they denote, and on a
    big-endian host leaves it as it is. *)
Theorem tuple_endpoints env o e (src dst other : list Byte.byte) proto :
  take 4 src = take 4 dst ->
  length src = 16%nat ->
  proto <> 0x0800 -> proto <> 0x86dd ->
  addrToStr env 0x0800 src = IP_String env (take 4 src)
  /\ addrToStr env 0x0800 src = addrToStr env 0x0800 dst
  /\ addrToStr env 0x86dd src = "[" +:+ IP_String env (take 16 src) +:+ "]"
  /\ addrToStr env proto other = EmptyString
  /\ (OutputTuple (flags o) = true ->
      let t := ETuple e in
      (" " +:+ addrToStr env (L3Proto t) (Saddr t) +:+ ":"
       +:+ fmt.d (byteorder.NetworkToHost16 (LittleEndian env) (Sport t)) +:+ "->"
       +:+ addrToStr env (L3Proto t) (Daddr t) +:+ ":"
       +:+ fmt.d (byteorder.NetworkToHost16 (LittleEndian env) (Dport t))
       +:+ "(" +:+ protoToStr (L4Proto t) +:+ ")")
      ∈ drop (S (length (writer o))) (writer (Print env o e)))
  /\ (forall b0 b1, 0 <= b0 < 256 -> 0 <= b1 < 256 ->
      byteorder.NetworkToHost16 true (hostLE16 b0 b1) = network16 b0 b1)
  /\ (forall u, byteorder.NetworkToHost16 false u = u).
Proof.
  intros Hlead Hlen Hnot4 Hnot6.
  split; [done|]. split; [unfold addrToStr; simpl; by rewrite Hlead|].
  split; [by rewrite <- Hlen, firstn_all|].
  split.
  { unfold addrToStr, syscall.ETH_P_IP, syscall.ETH_P_IPV6.
    destruct (Z.eqb_spec proto 0x0800); [done|].
    by destruct (Z.eqb_spec proto 0x86dd). }
  split.
  { intros Hon t. rewrite Print_afterColumns.
    unfold afterColumns, tupleSection. rewrite Hon.
    rewrite !elem_of_app. right. right. left.
    apply list_elem_of_singleton. reflexivity. }
  split; [|done].
  intros b0 b1 Hb0 Hb1. by apply ReverseBytes16_hostLE16.
Qed.

End TupleSection.

(** Two buffers that agree on their leading 4 bytes render alike under the
    IPv4 tag, and the ports 0x5000 and 0xbb01 are shown as 80 and 443. *)
Lemma tuple_endpoints_witness :
  let o := Ex.start Ex.flagsTuple Ex.noBuffers Ex.noStacks Ex.fooSyms true in
  addrToStr (Ex.env "amd64") 0x0800 Ex.src = addrToStr (Ex.env "amd64") 0x0800 Ex.dst
  /\ addrToStr (Ex.env "amd64") 0x0806 [] = EmptyString
  /\ " 10.0.0.1:80->10.0.0.1:443(tcp)"
     ∈ drop 1 (writer (Print (Ex.env "amd64") o Ex.tcpEvent)).
Proof.
  intros o.
  destruct (tuple_endpoints (Ex.env "amd64") o Ex.tcpEvent Ex.src Ex.dst [] 0x0806)
    as (_ & Hsame & _ & Hother & Hports & _);
    [reflexivity|reflexivity|discriminate|discriminate|].
  split; [exact Hsame|]. split; [exact Hother|].
  specialize (Hports eq_refl). vm_compute in Hports |- *. exact Hports.
Defined.

(** ** The stack and buffer expanders *)

Section Expanders.

Context {MB MS : Type}.
Context `{!ebpf.ByteMap MB} `{!ebpf.Map MS StackData}.

Implicit Types (env : Env) (o : output MB MS) (e : Event).

Lemma stackWanted_Print env o e e' :
  stackWanted (Print env o e) e' = stackWanted o e'.
Proof. unfold stackWanted. by rewrite Print_flags. Qed.

(** The buffer expander reads the same table before and after any
    [Print]. *)
Lemma skbSection_Print env o e e' :
  skbSection (Print env o e) e' = skbSection o e'.
Proof. unfold skbSection. by rewrite Print_flags, Print_printSkbMap. Qed.

(** C4, as the code has it.  The chunks of a record after its fixed columns
    end with the stack section, the buffer section and the line feed.  A
    stack table entry that is fetched is rendered and deleted from the stack
    table by the same [Print], so a second attempt with the same id finds no
    entry and renders no stack line.  The buffer expander deletes nothing:
    the buffer table after [Print] is the table before it, and a second
    attempt with the same id fetches and renders the same entry again. *)
Theorem expansion_consumes_stack_only env o e :
  let o' := Print env o e in
  let sid := uint32 (PrintStackId e) in
  let bid := uint32 (PrintSkbId e) in
  drop (S (length (writer o))) (writer o') =
    tsColumn (OutputTS (flags o))
             (shownTs (OutputTS (flags o)) (lastSeenSkb o) e)
    ++ metaSection (OutputMeta (flags o)) (EMeta e)
    ++ tupleSection env (OutputTuple (flags o)) (ETuple e)
    ++ stackSection env o e ++ skbSection o e ++ [fmt.nl]
  /\ (forall stack,
        OutputStack (flags o) = true -> 0 < PrintStackId e ->
        ebpf.Lookup (printStackMap o) sid = Some stack ->
        stackSection env o e = stackLines env (addr2name o) (IPs stack)
        /\ printStackMap o' = ebpf.Delete (printStackMap o) sid
        /\ ebpf.Lookup (printStackMap o') sid = None
        /\ stackSection env o' e = [])
  /\ (forall str,
        OutputSkb (flags o) = true ->
        ebpf.LookupBytes (printSkbMap o) bid = Some str ->
        skbSection o e = [fmt.nl +:+ string_of_list_byte str]
        /\ printSkbMap o' = printSkbMap o
        /\ ebpf.LookupBytes (printSkbMap o') bid = Some str
        /\ skbSection o' e = [fmt.nl +:+ string_of_list_byte str]).
Proof.
  intros o' sid bid. split; [apply Print_afterColumns|]. split.
  - intros stack Hon Hid Hfetch.
    assert (stackWanted o e = true) as Hwanted.
    { unfold stackWanted. rewrite Hon. simpl. by apply Z.ltb_lt. }
    assert (printStackMap o' = ebpf.Delete (printStackMap o) sid) as Hdel.
    { subst o'. by rewrite Print_printStackMap, Hwanted. }
    assert (ebpf.Lookup (printStackMap o') sid = None) as Hgone.
    { rewrite Hdel. apply ebpf.Lookup_Delete. }
    split; [|split; [done|split; [done|]]].
    + unfold stackSection. fold sid. by rewrite Hwanted, Hfetch.
    + unfold stackSection. fold sid. rewrite Hgone.
      by destruct (stackWanted o' e).
  - intros str Hon Hfetch.
    assert (skbSection o e = [fmt.nl +:+ string_of_list_byte str]) as Hsection.
    { unfold skbSection. fold bid. by rewrite Hon, Hfetch. }
    subst o'. rewrite skbSection_Print, Print_printSkbMap. done.
Qed.


End Expanders.

(** The stack entry 7 and the buffer entry 5, expanded by one event: the
    stack entry is gone afterwards, the buffer entry is not. *)
Lemma expansion_consumes_stack_only_witness :
  let o := Ex.start Ex.flagsExpand (Ex.oneBuffer 5) (Ex.oneStack 7) Ex.fooSyms true in
  let e := Ex.event 0xAB 0x2000 100 7 5 in
  let o' := Print (Ex.env "arm64") o e in
  (stackSection (Ex.env "arm64") o e = [fmt.nl +:+ "foo"; fmt.nl +:+ "foo"]
   /\ printStackMap o' !! 7 = None
   /\ stackSection (Ex.env "arm64") o' e = [])
  /\ (skbSection o e = [fmt.nl +:+ "skb"]
      /\ printSkbMap o' 5 = Some (list_byte_of_string "skb")
      /\ skbSection o' e = [fmt.nl +:+ "skb"]).
Proof.
  intros o e o'.
  destruct (expansion_consumes_stack_only (Ex.env "arm64") o e)
    as (_ & Hstack & Hbuffer).
  split.
  - destruct (Hstack {| IPs := [0x2010; 0x3000; 0; 0] |})
      as (Hlines & _ & Hgone & Hnone); [reflexivity|reflexivity|reflexivity|].
    split; [exact Hlines|]. split; [exact Hgone|exact Hnone].
  - destruct (Hbuffer (list_byte_of_string "skb"))
      as (Hsection & _ & Hfound & Hagain); [reflexivity|reflexivity|].
    split; [exact Hsection|]. split; [exact Hfound|exact Hagain].
Defined.

(** C4, as the claim has it, fails for the buffer expander: the entry 5 is
    fetched and rendered, it is still in the buffer table afterwards, and a
    second [Print] of the same event renders it again. *)
Lemma buffer_entry_survives_expansion :
  let o := Ex.start Ex.flagsExpand (Ex.oneBuffer 5) Ex.noStacks Ex.noSyms true in
  let e := Ex.event 0xAB 0x2000 100 0 5 in
  let o' := Print (Ex.env "arm64") o e in
  writer o' = [fixedColumns 0xAB 0 "init" "0x2000"; fmt.nl +:+ "skb"; fmt.nl]
  /\ ebpf.LookupBytes (printSkbMap o') 5 = Some (list_byte_of_string "skb")
  /\ writer (Print (Ex.env "arm64") o' e)
     = [fixedColumns 0xAB 0 "init" "0x2000"; fmt.nl +:+ "skb"; fmt.nl;
        fixedColumns 0xAB 0 "init" "0x2000"; fmt.nl +:+ "skb"; fmt.nl].
Proof. vm_compute. repeat split. Qed.



(** * Further properties of the renderer *)

(** ** Column widths *)

Lemma length_append s1 s2 :
  String.length (s1 +:+ s2) = (String.length s1 + String.length s2)%nat.
Proof. induction s1 as [|c s1 IH]; simpl; [done|]. by rewrite IH. Qed.

Lemma length_spaces n : String.length (fmt.spaces n) = n.
Proof. induction n as [|n IH]; simpl; [done|]. by rewrite IH. Qed.

Lemma length_bytes s : length (utf8.bytes s) = String.length s.
Proof.
  unfold utf8.bytes. rewrite length_fmap.
  induction s as [|c s IH]; simpl; [done|]. by rewrite IH.
Qed.

(** A rune takes at least one byte. *)
Lemma count_le_length bs : forall skip, (utf8.count skip bs <= length bs)%nat.
Proof.
  induction bs as [|c bs IH]; intros skip; simpl; [done|].
  destruct skip as [|k]; [specialize (IH (utf8.size c bs - 1)%nat)|specialize (IH k)];
    lia.
Qed.

Lemma RuneCount_le_length s : (utf8.RuneCountInString s <= String.length s)%nat.
Proof. unfold utf8.RuneCountInString. rewrite <- length_bytes. apply count_le_length. Qed.

(** A width pads up to the number of runes, it never truncates. *)
Lemma length_pad w s :
  String.length (fmt.pad w s)
  = (w - utf8.RuneCountInString s + String.length s)%nat.
Proof. unfold fmt.pad. by rewrite length_append, length_spaces. Qed.

Lemma length_fixedColumns skb cpu exe fn :
  String.length (fixedColumns skb cpu exe fn)
  = ((18 - utf8.RuneCountInString ("0x" +:+ fmt.x skb)
      + String.length ("0x" +:+ fmt.x skb)) + 1
     + (6 - utf8.RuneCountInString (fmt.d cpu) + String.length (fmt.d cpu)) + 1
     + (16 - utf8.RuneCountInString ("[" +:+ exe +:+ "]")
        + String.length ("[" +:+ exe +:+ "]")) + 1
     + (24 - utf8.RuneCountInString fn + String.length fn))%nat.
Proof.
  unfold fixedColumns. repeat rewrite ?length_append, ?length_pad.
  change (String.length " ") with 1%nat. lia.
Qed.

(** ** [NewOutput] and [PrintHeader] *)

Section Setup.

Context {MB MS : Type}.
Context `{!ebpf.ByteMap MB} `{!ebpf.Map MS StackData}.

Implicit Types (env : Env) (o : output MB MS) (e : Event).

(** X1. [NewOutput] fails exactly when an output file is named and it
    cannot be created; with no file named it succeeds whatever the file
    system allows.  When it succeeds the output starts with an empty
    per-flow clock and holds the flags, the two tables, the symbol table
    and the attachment flag it was given. *)
Theorem NewOutput_fails_only_on_create env fl (skbs : MB) (stacks : MS) syms multi :
  (NewOutput env fl skbs stacks syms multi = None
   <-> OutputFile fl <> EmptyString /\ os_Create env (OutputFile fl) = false)
  /\ (OutputFile fl = EmptyString ->
      is_Some (NewOutput env fl skbs stacks syms multi))
  /\ (forall o, NewOutput env fl skbs stacks syms multi = Some o ->
        lastSeenSkb o = ∅ /\ flags o = fl /\ printSkbMap o = skbs
        /\ printStackMap o = stacks /\ addr2name o = syms
        /\ kprobeMulti o = multi).
Proof.
  unfold NewOutput.
  destruct (String.eqb_spec (OutputFile fl) EmptyString) as [Hnone|Hfile];
    [|destruct (os_Create env (OutputFile fl)) eqn:Hcreate]; simpl.
  - split; [split; [done|by intros [? _]]|].
    split; [by eexists|]. by intros o [= <-].
  - split; [split; [done|by intros [_ ?]]|].
    split; [done|]. by intros o [= <-].
  - split; [done|]. split; [done|]. by intros o.
Qed.

(** X2. [PrintHeader] writes the column titles and a line feed, with the
    TIMESTAMP title between them exactly when the timestamp mode is not
    "none", which is exactly when every record carries a timestamp column
    after its fixed columns.  It changes nothing but the writer, so the
    records printed after it are those printed without it. *)
Theorem header_matches_records env o e :
  let rest := metaSection (OutputMeta (flags o)) (EMeta e)
              ++ tupleSection env (OutputTuple (flags o)) (ETuple e)
              ++ stackSection env o e ++ skbSection o e ++ [fmt.nl] in
  (OutputTS (flags o) = "none" ->
   writer (PrintHeader o) = writer o ++ [headerColumns; fmt.nl]
   /\ drop (S (length (writer o))) (writer (Print env o e)) = rest)
  /\ (OutputTS (flags o) <> "none" ->
      writer (PrintHeader o)
      = writer o ++ [headerColumns; " " +:+ fmt.pad 16 "TIMESTAMP"; fmt.nl]
      /\ exists ts,
           drop (S (length (writer o))) (writer (Print env o e))
           = (" " +:+ fmt.pad 16 (fmt.d ts)) :: rest)
  /\ writer (Print env (PrintHeader o) e)
     = writer (PrintHeader o) ++ drop (length (writer o)) (writer (Print env o e))
  /\ lastSeenSkb (PrintHeader o) = lastSeenSkb o
  /\ printStackMap (PrintHeader o) = printStackMap o
  /\ printSkbMap (PrintHeader o) = printSkbMap o.
Proof.
  intros rest.
  assert (PrintHeader o
          = Fprintfs o (headerColumns
                        :: (if String.eqb (OutputTS (flags o)) "none" then []
                            else [" " +:+ fmt.pad 16 "TIMESTAMP"]) ++ [fmt.nl]))
    as Hheader.
  { unfold PrintHeader. cbn [flags Fprintf].
    destruct (String.eqb (OutputTS (flags o)) "none"); cbn [negb];
      unfold Fprintf, Fprintfs; cbn [flags lastSeenSkb printSkbMap printStackMap
                                     addr2name writer kprobeMulti];
      f_equal; by rewrite <- !app_assoc. }
  split; [|split; [|split]].
  - intros Hmode. rewrite Hheader, Print_afterColumns.
    unfold afterColumns, tsColumn. by rewrite Hmode.
  - intros Hmode. rewrite Hheader, Print_afterColumns.
    unfold afterColumns, tsColumn.
    destruct (String.eqb_spec (OutputTS (flags o)) "none"); [done|].
    split; [done|]. by eexists.
  - rewrite !Print_writer, drop_app_length.
    by rewrite Hheader.
  - by rewrite Hheader.
Qed.

End Setup.

(** With only [trace.log] creatable: the output to [denied.log] fails,
    the output to the standard output does not. *)
Lemma NewOutput_fails_only_on_create_witness :
  NewOutput (Sample.env "amd64") Sample.flagsDenied Ex.noBuffers Ex.noStacks
    Ex.noSyms false = None
  /\ is_Some (NewOutput (Sample.env "amd64") (Ex.flagsTS "none") Ex.noBuffers
                Ex.noStacks Ex.noSyms false).
Proof.
  split.
  - destruct (NewOutput_fails_only_on_create (Sample.env "amd64") Sample.flagsDenied
                Ex.noBuffers Ex.noStacks Ex.noSyms false) as ([_ Hfails] & _).
    apply Hfails. split; [discriminate|reflexivity].
  - destruct (NewOutput_fails_only_on_create (Sample.env "amd64") (Ex.flagsTS "none")
                Ex.noBuffers Ex.noStacks Ex.noSyms false) as (_ & Hstdout & _).
    apply Hstdout. reflexivity.
Defined.

(** Without timestamps the header has two chunks and a record no
    timestamp column; with absolute timestamps the header has three. *)
Lemma header_matches_records_witness :
  let off := Ex.start (Ex.flagsTS "none") Ex.noBuffers Ex.noStacks Ex.noSyms false in
  let on := Ex.start (Ex.flagsTS "absolute") Ex.noBuffers Ex.noStacks Ex.noSyms false in
  writer (PrintHeader off) = [headerColumns; fmt.nl]
  /\ writer (PrintHeader on)
     = [headerColumns; " " +:+ fmt.pad 16 "TIMESTAMP"; fmt.nl].
Proof.
  intros off on. split.
  - destruct (header_matches_records (Ex.env "amd64") off (Sample.at_ 0xAB 100 0))
      as (Hnone & _).
    apply Hnone. reflexivity.
  - destruct (header_matches_records (Ex.env "amd64") on (Sample.at_ 0xAB 100 0))
      as (_ & Hsome & _).
    apply Hsome. discriminate.
Defined.

(** ** Timestamp modes and column widths *)

Section Columns.

Context {MB MS : Type}.
Context `{!ebpf.ByteMap MB} `{!ebpf.Map MS StackData}.

Implicit Types (env : Env) (o : output MB MS) (e : Event).

(** X3. In every timestamp mode other than "none" and "relative",
    whatever its name, the timestamp column shows the event's raw
    timestamp, independently of the per-flow clock. *)
Theorem other_modes_show_raw_timestamp env o e :
  OutputTS (flags o) <> "none" -> OutputTS (flags o) <> "relative" ->
  writer (Print env o e) !! S (length (writer o))
  = Some (" " +:+ fmt.pad 16 (fmt.d (Timestamp e))).
Proof.
  intros Hnone Hrelative.
  rewrite Print_writer. unfold record.
  rewrite lookup_app_r by lia.
  replace (S (length (writer o)) - length (writer o))%nat with 1%nat by lia.
  unfold afterColumns, tsColumn, shownTs.
  destruct (String.eqb_spec (OutputTS (flags o)) "none"); [done|].
  by destruct (String.eqb_spec (OutputTS (flags o)) "relative").
Qed.

(** X4. The fixed columns of a record are never shorter than the column
    titles of the header.  When the flow key literal, the CPU number, the
    bracketed process name and the function name have at most 18, 6, 16
    and 24 characters, the fixed columns have the length of the titles plus
    one byte for every byte by which these fields are longer than their
    number of characters; so they are exactly as long as the titles, and
    the columns line up, when in addition no field has a multi-byte
    character.  A function name longer than its column is written in full
    and makes the line longer. *)
Theorem columns_line_up_with_header env o e :
  let skb := "0x" +:+ fmt.x (SAddr e) in
  let cpu := fmt.d (CPU e) in
  let exe := "[" +:+ execName env (PID e) +:+ "]" in
  let fn := functionColumn env o e in
  let runes := utf8.RuneCountInString in
  exists cols,
    writer (Print env o e) !! length (writer o) = Some cols
    /\ String.length headerColumns = columnsWidth
    /\ (columnsWidth <= String.length cols)%nat
    /\ ((runes skb <= 18)%nat -> (runes cpu <= 6)%nat ->
        (runes exe <= 16)%nat -> (runes fn <= 24)%nat ->
        String.length cols
        = (columnsWidth
           + (String.length skb - runes skb) + (String.length cpu - runes cpu)
           + (String.length exe - runes exe) + (String.length fn - runes fn))%nat
        /\ (runes skb = String.length skb -> runes cpu = String.length cpu ->
            runes exe = String.length exe -> runes fn = String.length fn ->
            String.length cols = columnsWidth))
    /\ ((24 < String.length fn)%nat -> (columnsWidth < String.length cols)%nat).
Proof.
  intros skb cpu exe fn runes.
  pose proof (RuneCount_le_length skb). pose proof (RuneCount_le_length cpu).
  pose proof (RuneCount_le_length exe). pose proof (RuneCount_le_length fn).
  eexists. split; [apply Print_columns|].
  rewrite length_fixedColumns. unfold columnsWidth.
  subst skb cpu exe fn runes. cbv beta.
  split; [reflexivity|]. split; [lia|]. split; [|lia].
  intros Hskb Hcpu Hexe Hfn. split; [lia|]. intros ? ? ? ?. lia.
Qed.

End Columns.

(** In a mode named "absolute" the event at time 400 shows 400, whatever
    the clock holds for its flow. *)
Lemma other_modes_show_raw_timestamp_witness :
  let o := run (Ex.env "amd64")
             (Ex.start (Ex.flagsTS "absolute") Ex.noBuffers Ex.noStacks Ex.noSyms false)
             [Sample.at_ 0xAB 100 0] in
  writer (Print (Ex.env "amd64") o (Sample.at_ 0xAB 400 0)) !! 4%nat
  = Some (" " +:+ fmt.pad 16 "400").
Proof.
  intros o.
  apply (other_modes_show_raw_timestamp (Ex.env "amd64") o (Sample.at_ 0xAB 400 0));
    discriminate.
Defined.

(** The record of an event of flow 0xAB on CPU 0 by [init], resolved to
    [foo], is as long as the header; by a process whose name has one
    two-byte character, it is one byte longer. *)
Lemma columns_line_up_with_header_witness :
  let o := Ex.start (Ex.flagsTS "none") Ex.noBuffers Ex.noStacks Ex.fooSyms true in
  (exists cols,
     writer (Print (Ex.env "amd64") o (Sample.at_ 0xAB 100 0)) !! 0%nat = Some cols
     /\ String.length cols = String.length headerColumns)
  /\ (exists cols,
        writer (Print Sample.envCafe o (Sample.at_ 0xAB 100 0)) !! 0%nat = Some cols
        /\ String.length cols = (String.length headerColumns + 1)%nat).
Proof.
  intros o. split.
  - destruct (columns_line_up_with_header (Ex.env "amd64") o (Sample.at_ 0xAB 100 0))
      as (cols & Hcols & Hheader & _ & Hfit & _).
    exists cols. split; [exact Hcols|].
    rewrite Hheader. apply Hfit; vm_compute; lia.
  - destruct (columns_line_up_with_header Sample.envCafe o (Sample.at_ 0xAB 100 0))
      as (cols & Hcols & Hheader & _ & Hfit & _).
    exists cols. split; [exact Hcols|].
    destruct Hfit as [Hlength _]; [vm_compute; lia..|].
    rewrite Hlength, Hheader. vm_compute. reflexivity.
Defined.

(** ** Streams of events *)

Lemma lastTs_ofFlow k events : lastTs k (ofFlow k events) = lastTs k events.
Proof.
  unfold ofFlow. induction events as [|e events IH]; [done|].
  rewrite filter_cons. simpl. destruct (decide (SAddr e = k)) as [Hkey|Hother].
  - simpl. by rewrite IH.
  - rewrite IH. destruct (lastTs k events); [done|].
    by destruct (Z.eqb_spec (SAddr e) k).
Qed.

Section Streams.

Context {MB MS : Type}.
Context `{!ebpf.ByteMap MB} `{!ebpf.Map MS StackData}.

Implicit Types (env : Env) (o : output MB MS) (e : Event).

Lemma run_cons env o e events :
  run env o (e :: events) = run env (Print env o e) events.
Proof. reflexivity. Qed.

(** X5. Output is append-only and line-terminated: whatever had been
    written before a stream is a prefix of what is written after it, every
    event adds at least two chunks, and after a non-empty stream the last
    chunk written is the line feed that ends the last record. *)
Theorem records_are_appended env events : forall o,
  writer o `prefix_of` writer (run env o events)
  /\ (length (writer o) + 2 * length events <= length (writer (run env o events)))%nat
  /\ (events <> [] -> last (writer (run env o events)) = Some fmt.nl).
Proof.
  induction events as [|e events IH] using rev_ind; intros o.
  - split; [done|]. split; [simpl; lia|done].
  - destruct (IH o) as (Hprefix & Hlength & _).
    rewrite run_snoc, Print_writer. unfold record, afterColumns.
    split; [by apply prefix_app_r|]. split.
    + rewrite !length_app in *. simpl. rewrite !length_app. simpl. lia.
    + intros _. rewrite app_comm_cons, !app_assoc. apply last_snoc.
Qed.

(** X6. No stream of events changes the flags, the symbol table, the
    attachment flag or the buffer table handle of the output. *)
Theorem run_keeps_configuration env events : forall o,
  flags (run env o events) = flags o
  /\ addr2name (run env o events) = addr2name o
  /\ kprobeMulti (run env o events) = kprobeMulti o
  /\ printSkbMap (run env o events) = printSkbMap o.
Proof.
  induction events as [|e events IH]; intros o; [done|].
  rewrite run_cons. destruct (IH (Print env o e)) as (-> & -> & -> & ->).
  by rewrite Print_flags, Print_addr2name, Print_kprobeMulti, Print_printSkbMap.
Qed.

(** X7. The per-flow clock is never pruned: after a stream its keys are
    the keys it had before together with the flow keys of the stream, one
    entry per distinct flow key, in every timestamp mode. *)
Theorem clock_keeps_every_flow env events : forall o,
  dom (lastSeenSkb (run env o events)) = dom (lastSeenSkb o) ∪ flowKeys events
  /\ (size (lastSeenSkb o) <= size (lastSeenSkb (run env o events)))%nat
  /\ (size (lastSeenSkb (run env o events))
      <= size (lastSeenSkb o) + length events)%nat.
Proof.
  induction events as [|e events IH]; intros o.
  - unfold flowKeys. simpl. rewrite (right_id_L ∅ (∪)).
    split; [done|lia].
  - rewrite run_cons. destruct (IH (Print env o e)) as (Hdom & Hlow & Hhigh).
    rewrite Print_lastSeenSkb in Hdom, Hlow, Hhigh.
    rewrite map_size_insert in Hlow, Hhigh.
    split.
    + rewrite Hdom, dom_insert_L. unfold flowKeys. simpl.
      by rewrite (comm_L (∪) {[SAddr e]} (dom (lastSeenSkb o))), (assoc_L (∪)).
    + simpl. destruct (lastSeenSkb o !! SAddr e); unfold id in *; lia.
Qed.

(** X8. Flows do not disturb one another's relative timestamps: after a
    stream, the timestamp column of the next event is the one it would have
    after only the events of its own flow. *)
Theorem timestamp_ignores_other_flows env o events e :
  OutputTS (flags o) <> "none" ->
  let own := ofFlow (SAddr e) events in
  writer (Print env (run env o events) e) !! S (length (writer (run env o events)))
  = writer (Print env (run env o own) e) !! S (length (writer (run env o own))).
Proof.
  intros Hmode own.
  assert (forall evs,
            writer (Print env (run env o evs) e) !! S (length (writer (run env o evs)))
            = Some (" " +:+ fmt.pad 16
                      (fmt.d (shownTs (OutputTS (flags o))
                                (lastSeenSkb (run env o evs)) e)))) as Hcolumn.
  { intros evs. rewrite Print_writer. unfold record.
    rewrite lookup_app_r by lia.
    replace (S (length (writer (run env o evs))) - length (writer (run env o evs)))%nat
      with 1%nat by lia.
    unfold afterColumns, tsColumn. rewrite run_flags.
    by destruct (String.eqb_spec (OutputTS (flags o)) "none"). }
  rewrite !Hcolumn. unfold shownTs.
  rewrite !run_lastSeenSkb. subst own. by rewrite lastTs_ofFlow.
Qed.

(** X9. In relative mode and from any state: after an event of a flow,
    and then any events of other flows, the next event of that flow shows
    the difference of the two timestamps, in 64-bit arithmetic. *)
Theorem relative_to_latest_of_flow env o e others e' :
  OutputTS (flags o) = "relative" ->
  SAddr e' = SAddr e ->
  (forall x, x ∈ others -> SAddr x <> SAddr e) ->
  let before := run env (Print env o e) others in
  writer (Print env before e') !! S (length (writer before))
  = Some (" " +:+ fmt.pad 16 (fmt.d (wrap64 (Timestamp e' - Timestamp e)))).
Proof.
  intros Hmode Hkey Hothers before.
  rewrite Print_writer. unfold record.
  rewrite lookup_app_r by lia.
  replace (S (length (writer before)) - length (writer before))%nat with 1%nat by lia.
  unfold afterColumns, tsColumn, shownTs. subst before.
  rewrite run_flags, Print_flags, Hmode, run_lastSeenSkb, Hkey.
  rewrite (lastTs_none _ _ Hothers), Print_lastSeenSkb, lookup_insert_eq.
  reflexivity.
Qed.

End Streams.

(** ** The stack section and the stack table *)

Lemma stackLines_filter env syms ips :
  stackLines env syms ips
  = (fun ip => fmt.nl +:+ findNearestSym env syms ip) <$> filter (fun ip => 0 < ip) ips.
Proof.
  induction ips as [|ip ips IH]; [done|].
  rewrite filter_cons. simpl.
  destruct (Z.ltb_spec 0 ip), (decide (0 < ip)); try lia.
  - simpl. by rewrite IH.
  - done.
Qed.

Lemma filter_no_frames ips :
  (forall ip, ip ∈ ips -> ip <= 0) -> filter (fun ip => 0 < ip) ips = [].
Proof.
  induction ips as [|ip ips IH]; intros Hzero; [done|].
  rewrite filter_cons. destruct (decide (0 < ip)) as [Hpos|_].
  - assert (ip <= 0) by (apply Hzero; by left). lia.
  - apply IH. intros ip' Hin. apply Hzero. by right.
Qed.

Section StackSection.

Context {MB MS : Type}.
Context `{!ebpf.ByteMap MB} `{!ebpf.Map MS StackData}.

Implicit Types (env : Env) (o : output MB MS) (e : Event).

(** X10. When the stack entry of an event is fetched, the record carries
    one continuation line for each non-zero address of the entry, in
    stored order, between the tuple section and the buffer section; the
    zero padding gives no line, and an entry of zeros only gives no line at
    all and is deleted all the same. *)
Theorem stack_lines_skip_zero_padding env o e stack :
  OutputStack (flags o) = true -> 0 < PrintStackId e ->
  ebpf.Lookup (printStackMap o) (uint32 (PrintStackId e)) = Some stack ->
  let frames := filter (fun ip => 0 < ip) (IPs stack) in
  let lines := (fun ip => fmt.nl +:+ findNearestSym env (addr2name o) ip) <$> frames in
  drop (S (length (writer o))) (writer (Print env o e))
  = tsColumn (OutputTS (flags o)) (shownTs (OutputTS (flags o)) (lastSeenSkb o) e)
    ++ metaSection (OutputMeta (flags o)) (EMeta e)
    ++ tupleSection env (OutputTuple (flags o)) (ETuple e)
    ++ lines ++ skbSection o e ++ [fmt.nl]
  /\ length lines = length frames
  /\ ((forall ip, ip ∈ IPs stack -> ip <= 0) ->
      lines = []
      /\ printStackMap (Print env o e)
         = ebpf.Delete (printStackMap o) (uint32 (PrintStackId e))).
Proof.
  intros Hon Hid Hfetch frames lines.
  assert (stackWanted o e = true) as Hwanted.
  { unfold stackWanted. rewrite Hon. simpl. by apply Z.ltb_lt. }
  assert (stackSection env o e = lines) as Hsection.
  { unfold stackSection. rewrite Hwanted, Hfetch. apply stackLines_filter. }
  split; [|split].
  - rewrite Print_afterColumns. unfold afterColumns. by rewrite Hsection.
  - subst lines. by rewrite length_fmap.
  - intros Hzero. split.
    + subst lines frames. by rewrite (filter_no_frames _ Hzero).
    + by rewrite Print_printStackMap, Hwanted.
Qed.

End StackSection.

Lemma stackIds_cons e events :
  stackIds (e :: events)
  = if decide (0 < PrintStackId e)
    then {[uint32 (PrintStackId e)]} ∪ stackIds events
    else stackIds events.
Proof.
  unfold stackIds. rewrite filter_cons.
  by destruct (decide (0 < PrintStackId e)).
Qed.

Section StackTable.

Context {MB : Type} `{!ebpf.ByteMap MB}.

Implicit Types (env : Env) (o : output MB (gmap Z StackData)) (e : Event).

Lemma run_stack_table_off env events : forall o,
  OutputStack (flags o) = false ->
  printStackMap (run env o events) = printStackMap o.
Proof.
  induction events as [|e events IH]; intros o Hoff; [done|].
  rewrite run_cons, IH by (by rewrite Print_flags).
  rewrite Print_printStackMap. unfold stackWanted. by rewrite Hoff.
Qed.

Lemma run_stack_table_on env events : forall o k,
  OutputStack (flags o) = true ->
  printStackMap (run env o events) !! k
  = if decide (k ∈ stackIds events) then None else printStackMap o !! k.
Proof.
  induction events as [|e events IH]; intros o k Hon.
  - simpl. destruct (decide (k ∈ stackIds [])) as [Hin|]; [|done].
    by apply not_elem_of_empty in Hin.
  - rewrite run_cons, IH by (by rewrite Print_flags).
    rewrite Print_printStackMap, stackIds_cons. unfold stackWanted.
    rewrite Hon. simpl.
    destruct (Z.ltb_spec 0 (PrintStackId e)), (decide (0 < PrintStackId e));
      try lia; [|done].
    change (ebpf.Delete (printStackMap o) (uint32 (PrintStackId e)))
      with (delete (uint32 (PrintStackId e)) (printStackMap o)).
    destruct (decide (k ∈ stackIds events)) as [Hin|Hout].
    + rewrite decide_True; [done|]. apply elem_of_union. by right.
    + destruct (decide (k = uint32 (PrintStackId e))) as [->|Hne].
      * rewrite lookup_delete_eq, decide_True; [done|].
        apply elem_of_union. left. by apply elem_of_singleton.
      * rewrite lookup_delete_ne by done.
        rewrite decide_False; [done|].
        intros [Heq%elem_of_singleton|Hin]%elem_of_union; done.
Qed.

(** X11. With the stack table held as a finite map, processing a stream
    never adds an entry to it and removes exactly the entries under the
    stack ids (truncated to 32 bits) of the events with a positive stack
    id, whether or not they were present; with stack output off the table
    is left as it is. *)
Theorem stack_table_loses_expanded_keys env o events :
  printStackMap (run env o events) ⊆ printStackMap o
  /\ (OutputStack (flags o) = false ->
      printStackMap (run env o events) = printStackMap o)
  /\ (OutputStack (flags o) = true ->
      forall k, printStackMap (run env o events) !! k
                = if decide (k ∈ stackIds events) then None
                  else printStackMap o !! k).
Proof.
  split; [|split].
  - destruct (OutputStack (flags o)) eqn:Hflag.
    + apply map_subseteq_spec. intros k stack.
      rewrite run_stack_table_on by done.
      by destruct (decide (k ∈ stackIds events)).
    + by rewrite run_stack_table_off.
  - apply run_stack_table_off.
  - intros Hon k. by apply run_stack_table_on.
Qed.

End StackTable.

(** ** Protocol names, addresses and buffer text *)

(** X12. The names of the four recognized L4 protocols identify them: the
    rendered name is "tcp" only for 6, "udp" only for 17, "icmp" only for 1
    and "icmp6" only for 58, and it is empty exactly for the other tags. *)
Theorem protocol_names_identify_protocol proto :
  (protoToStr proto = "tcp" <-> proto = 6)
  /\ (protoToStr proto = "udp" <-> proto = 17)
  /\ (protoToStr proto = "icmp" <-> proto = 1)
  /\ (protoToStr proto = "icmp6" <-> proto = 58)
  /\ (protoToStr proto = EmptyString
      <-> proto <> 6 /\ proto <> 17 /\ proto <> 1 /\ proto <> 58).
Proof.
  unfold protoToStr, syscall.IPPROTO_TCP, syscall.IPPROTO_UDP,
    syscall.IPPROTO_ICMP, syscall.IPPROTO_ICMPV6.
  destruct (Z.eqb_spec proto 6) as [->|H6]; [repeat split; (done || lia)|].
  destruct (Z.eqb_spec proto 17) as [->|H17]; [repeat split; (done || lia)|].
  destruct (Z.eqb_spec proto 1) as [->|H1]; [repeat split; (done || lia)|].
  destruct (Z.eqb_spec proto 58) as [->|H58]; [repeat split; (done || lia)|].
  repeat split; (done || lia).
Qed.

(** X13. For a raw address in the 64-bit range, the address that is
    looked up and the address four below it that amd64 retries are again in
    the 64-bit range; on amd64 and arm64 normalization is one-to-one, so
    distinct raw addresses are looked up at distinct addresses; on amd64
    without kprobe-multi it is the raw address minus 1 except at 0, where it
    wraps to the largest address. *)
Theorem normalized_address_in_range arch multi raw :
  0 <= raw < 2 ^ 64 ->
  0 <= lookupAddr arch multi raw < 2 ^ 64
  /\ 0 <= wrap64 (lookupAddr arch multi raw - 4) < 2 ^ 64
  /\ (arch = "amd64" \/ arch = "arm64" ->
      forall raw', 0 <= raw' < 2 ^ 64 ->
                   lookupAddr arch multi raw' = lookupAddr arch multi raw ->
                   raw' = raw)
  /\ (raw <> 0 -> lookupAddr "amd64" false raw = raw - 1)
  /\ (raw = 0 -> lookupAddr "amd64" false raw = 2 ^ 64 - 1).
Proof.
  intros Hrange.
  assert (forall x, 0 <= x < 2 ^ 64 ->
                    wrap64 (x - 1) = if decide (x = 0) then 2 ^ 64 - 1 else x - 1)
    as Hminus.
  { intros x Hx. unfold wrap64. destruct (decide (x = 0)) as [->|Hnz]; [done|].
    apply Z.mod_small. lia. }
  split; [|split; [|split; [|split]]].
  - unfold lookupAddr.
    destruct (String.eqb arch "amd64"), multi, (String.eqb arch "arm64");
      rewrite ?Hminus by done; try destruct (decide (raw = 0)); lia.
  - unfold wrap64. apply Z.mod_pos_bound. lia.
  - intros Harch raw' Hrange'. unfold lookupAddr.
    destruct Harch as [->| ->]; simpl; [|done].
    destruct multi; [done|].
    rewrite !Hminus by done.
    destruct (decide (raw' = 0)), (decide (raw = 0)); lia.
  - intros Hnz. change (lookupAddr "amd64" false raw) with (wrap64 (raw - 1)).
    rewrite Hminus by done. by destruct (decide (raw = 0)).
  - by intros ->.
Qed.

Section BufferSection.

Context {MB MS : Type}.
Context `{!ebpf.ByteMap MB} `{!ebpf.Map MS StackData}.

Implicit Types (env : Env) (o : output MB MS) (e : Event).

(** X14. A buffer entry that is fetched is written verbatim: the chunk
    before the final line feed of the record is a line feed followed by a
    text whose bytes are exactly the bytes of the entry. *)
Theorem buffer_is_written_verbatim env o e str :
  OutputSkb (flags o) = true ->
  ebpf.LookupBytes (printSkbMap o) (uint32 (PrintSkbId e)) = Some str ->
  exists text,
    writer (Print env o e) !! (length (writer (Print env o e)) - 2)%nat
    = Some (fmt.nl +:+ text)
    /\ list_byte_of_string text = str.
Proof.
  intros Hon Hfetch. exists (string_of_list_byte str).
  split; [|apply list_byte_of_string_of_list_byte].
  rewrite Print_writer. unfold record, afterColumns, skbSection.
  rewrite Hon, Hfetch.
  set (ts := tsColumn _ _). set (meta := metaSection _ _).
  set (tuple := tupleSection _ _ _). set (stack := stackSection _ _ _).
  set (cols := fixedColumns _ _ _ _). set (text := fmt.nl +:+ _).
  replace (writer o ++ cols :: ts ++ meta ++ tuple ++ stack ++ [text] ++ [fmt.nl])
    with ((writer o ++ cols :: ts ++ meta ++ tuple ++ stack) ++ [text; fmt.nl])
    by (rewrite <- !app_assoc; simpl; by rewrite <- !app_assoc).
  rewrite length_app. simpl.
  rewrite lookup_app_r by lia.
  by replace (length (writer o ++ cols :: ts ++ meta ++ tuple ++ stack) + 2 - 2
              - length (writer o ++ cols :: ts ++ meta ++ tuple ++ stack))%nat
    with 0%nat by lia.
Qed.

End BufferSection.

(** ** The properties above, at concrete inputs *)

(** Two events after a header: the header stays in front and the last
    chunk is a line feed. *)
Lemma records_are_appended_witness :
  let o := PrintHeader
             (Ex.start (Ex.flagsTS "none") Ex.noBuffers Ex.noStacks Ex.noSyms true) in
  let events := [Sample.at_ 0xAB 100 0; Sample.at_ 0xCD 120 0] in
  writer o `prefix_of` writer (run (Ex.env "arm64") o events)
  /\ last (writer (run (Ex.env "arm64") o events)) = Some fmt.nl.
Proof.
  intros o events.
  destruct (records_are_appended (Ex.env "arm64") events o) as (Hprefix & _ & Hlast).
  split; [exact Hprefix|]. apply Hlast. discriminate.
Defined.

(** The flow 0xAB, interleaved with the flow 0xCD, shows for its event at
    400 what it shows without the flow 0xCD. *)
Lemma timestamp_ignores_other_flows_witness :
  let o := Ex.start (Ex.flagsTS "relative") Ex.noBuffers Ex.noStacks Ex.noSyms true in
  let mixed := [Sample.at_ 0xAB 100 0; Sample.at_ 0xCD 120 0;
                Sample.at_ 0xAB 150 0; Sample.at_ 0xCD 390 0] in
  let own := [Sample.at_ 0xAB 100 0; Sample.at_ 0xAB 150 0] in
  writer (Print (Ex.env "arm64") (run (Ex.env "arm64") o mixed) (Sample.at_ 0xAB 400 0))
    !! 13%nat
  = writer (Print (Ex.env "arm64") (run (Ex.env "arm64") o own) (Sample.at_ 0xAB 400 0))
      !! 7%nat.
Proof.
  intros o mixed own.
  pose proof (timestamp_ignores_other_flows (Ex.env "arm64") o mixed
                (Sample.at_ 0xAB 400 0)) as Hsame.
  assert (OutputTS (flags o) <> "none") as Hmode by discriminate.
  specialize (Hsame Hmode).
  vm_compute in Hsame |- *. exact Hsame.
Defined.

(** From a relative-mode state that already holds other
    flows: 0xAB at 100, then 0xCD twice, then 0xAB at 400 shows 300. *)
Lemma relative_to_latest_of_flow_witness :
  let o := run (Ex.env "arm64")
             (Ex.start (Ex.flagsTS "relative") Ex.noBuffers Ex.noStacks Ex.noSyms true)
             [Sample.at_ 0xEF 5 0; Sample.at_ 0xAB 7 0] in
  let before := run (Ex.env "arm64") (Print (Ex.env "arm64") o (Sample.at_ 0xAB 100 0))
                  [Sample.at_ 0xCD 120 0; Sample.at_ 0xCD 390 0] in
  writer (Print (Ex.env "arm64") before (Sample.at_ 0xAB 400 0))
    !! S (length (writer before))
  = Some (" " +:+ fmt.pad 16 "300").
Proof.
  intros o before.
  assert (forall x, x ∈ [Sample.at_ 0xCD 120 0; Sample.at_ 0xCD 390 0] ->
                    SAddr x <> SAddr (Sample.at_ 0xAB 100 0)) as Hothers.
  { intros x Hin.
    apply elem_of_cons in Hin as [->|Hin]; [discriminate|].
    apply elem_of_cons in Hin as [->|Hin]; [discriminate|].
    by apply elem_of_nil in Hin. }
  pose proof (relative_to_latest_of_flow (Ex.env "arm64") o (Sample.at_ 0xAB 100 0)
                [Sample.at_ 0xCD 120 0; Sample.at_ 0xCD 390 0] (Sample.at_ 0xAB 400 0)
                eq_refl eq_refl Hothers) as Hshown.
  vm_compute in Hshown |- *. exact Hshown.
Defined.

(** The entry 7, with the addresses 0x2010, 0, 0x3000, 0, gives two
    lines, here before the empty line of the empty buffer table; the entry
    9, all zeros, gives none and is deleted. *)
Lemma stack_lines_skip_zero_padding_witness :
  let o := Ex.start Ex.flagsExpand Ex.noBuffers Sample.twoStacks Ex.fooSyms true in
  drop 1 (writer (Print (Ex.env "arm64") o (Sample.at_ 0xAB 100 7)))
  = [fmt.nl +:+ "foo"; fmt.nl +:+ "foo"; fmt.nl; fmt.nl]
  /\ printStackMap (Print (Ex.env "arm64") o (Sample.at_ 0xAB 100 9))
     = delete 9 Sample.twoStacks.
Proof.
  intros o. split.
  - destruct (stack_lines_skip_zero_padding (Ex.env "arm64") o (Sample.at_ 0xAB 100 7)
                {| IPs := [0x2010; 0; 0x3000; 0] |}) as (Hrecord & _);
      [reflexivity|reflexivity|reflexivity|].
    vm_compute in Hrecord |- *. exact Hrecord.
  - destruct (stack_lines_skip_zero_padding (Ex.env "arm64") o (Sample.at_ 0xAB 100 9)
                {| IPs := [0; 0] |}) as (_ & _ & Hzeros);
      [reflexivity|reflexivity|reflexivity|].
    assert (forall ip : Z, ip ∈ [0; 0] -> ip <= 0) as Hall.
    { intros ip Hin.
      apply elem_of_cons in Hin as [->|Hin]; [lia|].
      apply elem_of_cons in Hin as [->|Hin]; [lia|].
      by apply elem_of_nil in Hin. }
    destruct (Hzeros Hall) as [_ Hdeleted].
    vm_compute in Hdeleted |- *. exact Hdeleted.
Defined.

(** Events with the stack ids 7, 0 and 8 leave of the entries 7 and 9
    only the entry 9. *)
Lemma stack_table_loses_expanded_keys_witness :
  let o := Ex.start Ex.flagsExpand Ex.noBuffers Sample.twoStacks Ex.fooSyms true in
  let events := [Sample.at_ 0xAB 100 7; Sample.at_ 0xAB 110 0; Sample.at_ 0xCD 120 8] in
  printStackMap (run (Ex.env "arm64") o events) !! 7 = None
  /\ printStackMap (run (Ex.env "arm64") o events) !! 9 = Sample.twoStacks !! 9.
Proof.
  intros o events.
  destruct (stack_table_loses_expanded_keys (Ex.env "arm64") o events)
    as (_ & _ & Hon).
  pose proof (Hon eq_refl 7) as Hgone. pose proof (Hon eq_refl 9) as Hkept.
  vm_compute in Hgone, Hkept |- *. split; [exact Hgone|exact Hkept].
Defined.

Lemma protocol_names_identify_protocol_witness :
  protoToStr 17 = "udp" /\ protoToStr 132 = EmptyString.
Proof.
  split.
  - destruct (protocol_names_identify_protocol 17) as (_ & [_ Hudp] & _).
    apply Hudp. reflexivity.
  - destruct (protocol_names_identify_protocol 132) as (_ & _ & _ & _ & [_ Hother]).
    apply Hother. lia.
Defined.

(** At the raw address 0 normalization wraps, and stays in range. *)
Lemma normalized_address_in_range_witness :
  0 <= lookupAddr "amd64" false 0 < 2 ^ 64
  /\ lookupAddr "amd64" false 0 = 2 ^ 64 - 1.
Proof.
  destruct (normalized_address_in_range "amd64" false 0) as (Hrange & _ & _ & _ & Hwrap);
    [lia|].
  split; [exact Hrange|]. apply Hwrap. reflexivity.
Defined.

(** The buffer entry 5, the bytes of [skb], is written as it is. *)
Lemma buffer_is_written_verbatim_witness :
  let o := Ex.start Ex.flagsExpand (Ex.oneBuffer 5) Ex.noStacks Ex.noSyms true in
  exists text,
    writer (Print (Ex.env "arm64") o (Ex.event 0xAB 0x2000 100 0 5)) !! 1%nat
    = Some (fmt.nl +:+ text)
    /\ list_byte_of_string text = list_byte_of_string "skb".
Proof.
  intros o.
  destruct (buffer_is_written_verbatim (Ex.env "arm64") o
              (Ex.event 0xAB 0x2000 100 0 5) (list_byte_of_string "skb"))
    as (text & Hchunk & Hbytes); [reflexivity|reflexivity|].
  exists text. split; [|exact Hbytes].
  vm_compute in Hchunk |- *. exact Hchunk.
Defined.

(** ** Normalization and resolution together *)

Section Offsets.

Context {MB MS : Type}.
Context `{!ebpf.ByteMap MB} `{!ebpf.Map MS StackData}.

Implicit Types (env : Env) (o : output MB MS) (e : Event).

(** X15. On amd64 without kprobe-multi the two corrections add up: an
    event whose raw address is 1 above a symbol's address shows that
    symbol, and when there is no symbol 1 below the raw address, a symbol 5
    below it is shown; with kprobe-multi the offsets are 0 and 4. *)
Theorem amd64_offsets_add_up env o e k :
  GOARCH env = "amd64" -> 5 <= Addr e < 2 ^ 64 ->
  let syms := Addr2NameMap (addr2name o) in
  let shows fn :=
    writer (Print env o e) !! length (writer o)
    = Some (fixedColumns (SAddr e) (CPU e) (execName env (PID e)) fn) in
  (kprobeMulti o = false ->
   (syms !! (Addr e - 1) = Some k -> shows (name k))
   /\ (syms !! (Addr e - 1) = None -> syms !! (Addr e - 5) = Some k ->
       shows (name k)))
  /\ (kprobeMulti o = true ->
      (syms !! Addr e = Some k -> shows (name k))
      /\ (syms !! Addr e = None -> syms !! (Addr e - 4) = Some k ->
          shows (name k))).
Proof.
  intros Harch Hrange syms shows. subst shows. cbv beta.
  rewrite Print_columns. unfold functionColumn, funcName, lookupAddr.
  rewrite Harch. simpl. fold syms.
  assert (wrap64 (Addr e - 1) = Addr e - 1) as Hone
    by (unfold wrap64; apply Z.mod_small; lia).
  assert (wrap64 (Addr e - 1 - 4) = Addr e - 5) as Hfive
    by (unfold wrap64; rewrite Z.mod_small by lia; lia).
  assert (wrap64 (Addr e - 4) = Addr e - 4) as Hfour
    by (unfold wrap64; apply Z.mod_small; lia).
  split; intros ->; rewrite ?Hone, ?Hfive, ?Hfour; split.
  - by intros ->.
  - intros -> Hbelow. by rewrite Hbelow.
  - by intros ->.
  - intros -> Hbelow. by rewrite Hbelow.
Qed.

End Offsets.

(** With only 0x2000 -> "foo": the raw address 0x2005 shows [foo] without
    kprobe-multi, the raw address 0x2004 shows it with kprobe-multi. *)
Lemma amd64_offsets_add_up_witness :
  let single := Ex.start (Ex.flagsTS "none") Ex.noBuffers Ex.noStacks Ex.fooSyms false in
  let multi := Ex.start (Ex.flagsTS "none") Ex.noBuffers Ex.noStacks Ex.fooSyms true in
  writer (Print (Ex.env "amd64") single (Ex.event 0xAB 0x2005 100 0 0)) !! 0%nat
  = Some (fixedColumns 0xAB 0 "init" "foo")
  /\ writer (Print (Ex.env "amd64") multi (Ex.event 0xAB 0x2004 100 0 0)) !! 0%nat
     = Some (fixedColumns 0xAB 0 "init" "foo").
Proof.
  intros single multi. split.
  - destruct (amd64_offsets_add_up (Ex.env "amd64") single
                (Ex.event 0xAB 0x2005 100 0 0) Ex.foo) as [Hsingle _];
      [reflexivity|simpl; lia|].
    destruct (Hsingle eq_refl) as [_ Hfive]. apply Hfive; reflexivity.
  - destruct (amd64_offsets_add_up (Ex.env "amd64") multi
                (Ex.event 0xAB 0x2004 100 0 0) Ex.foo) as [_ Hmulti];
      [reflexivity|simpl; lia|].
    destruct (Hmulti eq_refl) as [_ Hfour]. apply Hfour; reflexivity.
Defined.
